(** * Kenzies Fridge leaderboard backend: a shallow embedding of [main.py]

    The development follows the source file top to bottom:

    - the fragment of the Python runtime the program relies on (JSON values,
      exceptions, [float()], [int()], [round(x, 2)], [int / int], a stable
      [list.sort(..., reverse=True)], [datetime]);
    - the pure functions [compute_podium_snapshot] and [compute_user_metrics];
    - the persisted document, the clock and the request handlers, written in a
      state-and-exception monad over the file [data/leaderboard.json];
    - the properties of the monthly rollover, of the two writers, of the
      metrics and of the ranking, each followed at the end of the file by an
      instance on concrete data.

    Python [float]s are IEEE 754 binary64 numbers and are modelled by Rocq's
    primitive [float]s, whose operations are the same binary64 operations;
    what the program does with them beyond [+ - * /] and the comparisons is
    defined on their exact values through [Prim2SF] and [SF2Prim]. *)

From Stdlib Require Import ZArith Floats Lia Bool Ascii.
From stdpp Require Import gmap strings list fin_maps sorting.

Open Scope Z_scope.

(** ** Values and exceptions *)

(** What [json.load] produces, and so what a stored record may hold. *)
#[warnings="-register-all"]
Inductive value : Type :=
| VNone
| VBool (b : bool)
| VInt (n : Z)
| VFloat (x : float)
| VStr (s : string)
| VList (l : list value)
| VDict (d : list (string * value)).

(** The exceptions the program can meet.  [HTTPException] is the only one
    the program raises itself; the others come from the runtime. *)
Inductive exn : Type :=
| TypeError
| ValueError
| OverflowError
| ZeroDivisionError
| HTTPException (status_code : Z) (detail : string).

Inductive result (A : Type) : Type :=
| Ok (a : A)
| Raise (e : exn).
Arguments Ok {A} a.
Arguments Raise {A} e.

#[global] Instance result_ret : MRet result := fun _ a => Ok a.
#[global] Instance result_bind : MBind result := fun _ _ f r =>
  match r with
  | Ok a => f a
  | Raise e => Raise e
  end.

Definition is_Ok {A} (r : result A) : Prop := exists a, r = Ok a.

(** A dict with string keys whose iteration order does not matter to the
    program: a user record. *)
Abbreviation record := (gmap string value).

(** [d.get(k, dflt)] *)
Definition get (u : record) (k : string) (dflt : value) : value :=
  default dflt (u !! k).

(** [d.setdefault(k, dflt)], for its effect on [d]. *)
Definition setdefault (k : string) (dflt : value) (u : record) : record :=
  match u !! k with
  | Some _ => u
  | None => <[k := dflt]> u
  end.

(** ** binary64 arithmetic beyond the primitive operations *)

Definition is_infinite_SF (x : spec_float) : bool :=
  match x with
  | S754_infinity _ => true
  | _ => false
  end.

(** The binary64 number nearest to the integer [n] (ties to even), as
    [float(n)] computes it; [None] when it is out of range
    ([OverflowError: int too large to convert to float]). *)
Definition float_of_Z (n : Z) : option float :=
  let x := binary_normalize prec emax n 0 false in
  if is_infinite_SF x then None else Some (SF2Prim x).

(** The binary64 number nearest to [n / d] (ties to even), with sign [s]. *)
Definition SF_of_ratio (s : bool) (n d : positive) : spec_float :=
  SFdiv prec emax (S754_finite s n 0) (S754_finite false d 0).

(** [a / b] on Python ints: true division, correctly rounded. *)
Definition int_truediv (a b : Z) : result float :=
  let s := xorb (a <? 0) (b <? 0) in
  match Z.abs a, Z.abs b with
  | _, Z0 => Raise ZeroDivisionError
  | Zpos n, Zpos d =>
      let q := SF_of_ratio s n d in
      if is_infinite_SF q then Raise OverflowError else Ok (SF2Prim q)
  | _, _ => Ok (SF2Prim (S754_zero s))
  end.

(** The integer nearest to [n / d], ties to even ([0 <= n], [0 < d]). *)
Definition round_half_even_div (n d : Z) : Z :=
  let q := n / d in
  let r := n mod d in
  match 2 * r ?= d with
  | Lt => q
  | Gt => q + 1
  | Eq => if Z.even q then q else q + 1
  end.

(** [round(x, 2)] on a float: the exact value of [x] is rounded to two
    decimals (ties to even) and the decimal obtained is converted back to the
    nearest binary64 number; NaN, infinities and zeros round to themselves. *)
Definition round2 (x : float) : float :=
  match Prim2SF x with
  | S754_finite s m e =>
      let n := if 0 <=? e then Zpos m * 100 * 2 ^ e
               else round_half_even_div (Zpos m * 100) (2 ^ (- e)) in
      match n with
      | Zpos p => SF2Prim (SF_of_ratio s p 100)
      | _ => SF2Prim (S754_zero s)
      end
  | _ => x
  end.

(** [int(x)] on a float: truncation towards zero. *)
Definition Z_of_float (x : float) : result Z :=
  match Prim2SF x with
  | S754_nan => Raise ValueError
  | S754_infinity _ => Raise OverflowError
  | S754_zero _ => Ok 0
  | S754_finite s m e =>
      let a := if 0 <=? e then Zpos m * 2 ^ e else Zpos m / 2 ^ (- e) in
      Ok (if s then - a else a)
  end.

(** ** Stable descending sort

    [l.sort(key=k, reverse=True)] is stable: elements with equal keys keep
    their order.  Where the keys hold no NaN, [<] on them is a strict weak
    order and the stable arrangement is unique, so the insertion sort below
    returns the list CPython returns.  With a NaN among the keys every
    comparison with it is false and the result of CPython depends on the
    runs its merge sort finds: it is a rearrangement of the list still, but
    in general another one than the insertion sort gives (the balances 4800,
    NaN, 4800, 5200 come out of CPython as NaN, 5200, 4800, 4800), and equal
    keys need not keep their order.  So every property below that speaks of
    the order the sort gives carries the hypothesis that no key is NaN, and
    the one list with a NaN that the instances sort, the keys 1, NaN, 2, is
    left as it is by CPython and by the insertion sort alike. *)
Section Sort.
Context {A : Type} (key : A -> float).

Fixpoint insert_desc (x : A) (l : list A) : list A :=
  match l with
  | [] => [x]
  | y :: l' =>
      if (key x <? key y)%float then y :: insert_desc x l' else x :: y :: l'
  end.

Definition sort_desc (l : list A) : list A := foldr insert_desc [] l.

End Sort.

(** ** Dates *)

Record datetime : Type := {
  year : Z; month : Z; day : Z;
  hour : Z; minute : Z; second : Z; microsecond : Z
}.

Definition digit_char (d : Z) : ascii := ascii_of_nat (48 + Z.to_nat d).

(** [n] in decimal, zero-padded to [width] digits. *)
Fixpoint zpad (width : nat) (n : Z) : string :=
  match width with
  | O => EmptyString
  | S w => zpad w (n / 10) +:+ String (digit_char (n mod 10)) EmptyString
  end.

(** [dt.strftime("%Y-%m")], for the four-digit years the clock returns. *)
Definition strftime_Ym (dt : datetime) : string :=
  zpad 4 (year dt) +:+ "-" +:+ zpad 2 (month dt).

(** [dt.isoformat()] *)
Definition isoformat (dt : datetime) : string :=
  zpad 4 (year dt) +:+ "-" +:+ zpad 2 (month dt) +:+ "-" +:+ zpad 2 (day dt)
  +:+ "T" +:+ zpad 2 (hour dt) +:+ ":" +:+ zpad 2 (minute dt) +:+ ":"
  +:+ zpad 2 (second dt)
  +:+ (if microsecond dt =? 0 then EmptyString
       else "." +:+ zpad 6 (microsecond dt)).

Definition is_leap (y : Z) : bool :=
  ((y mod 4 =? 0) && negb (y mod 100 =? 0)) || (y mod 400 =? 0).

Definition days_in_month (y m : Z) : Z :=
  if m =? 2 then (if is_leap y then 29 else 28)
  else if (m =? 4) || (m =? 6) || (m =? 9) || (m =? 11) then 30
  else 31.

(** [dt.replace(day=1)] *)
Definition replace_day1 (dt : datetime) : datetime :=
  {| year := year dt; month := month dt; day := 1;
     hour := hour dt; minute := minute dt; second := second dt;
     microsecond := microsecond dt |}.

(** [dt - timedelta(days=1)] *)
Definition minus_one_day (dt : datetime) : datetime :=
  let '(y, m, d) :=
    if 1 <? day dt then (year dt, month dt, day dt - 1)
    else if 1 <? month dt
         then (year dt, month dt - 1, days_in_month (year dt) (month dt - 1))
         else (year dt - 1, 12, 31) in
  {| year := y; month := m; day := d;
     hour := hour dt; minute := minute dt; second := second dt;
     microsecond := microsecond dt |}.

(** ASCII lower-casing.  [str.lower()] maps no character outside ASCII to
    one of the letters of "win" or "lose", so on the comparison made by
    [record_trade] it agrees with this function. *)
Definition lower_ascii (c : ascii) : ascii :=
  let n := nat_of_ascii c in
  if ((65 <=? n) && (n <=? 90))%nat then ascii_of_nat (n + 32) else c.

Fixpoint lower (s : string) : string :=
  match s with
  | EmptyString => EmptyString
  | String c s' => String (lower_ascii c) (lower s')
  end.

(** [s[:n]] *)
Fixpoint str_take (n : nat) (s : string) : string :=
  match n, s with
  | S n', String c s' => String c (str_take n' s')
  | _, _ => EmptyString
  end.

(** ** Coercions, ranking and metrics

    [float(s)] and [int(s)] on a string follow the grammar of the Python
    runtime; the development takes them as given ([None] where the runtime
    raises [ValueError]) and holds for any such pair of functions. *)
Section Runtime.
Variable float_of_str : string -> option float.
Variable int_of_str : string -> option Z.

(** [float(v)] *)
Definition py_float (v : value) : result float :=
  match v with
  | VNone => Raise TypeError
  | VBool b => Ok (if b then 1%float else 0%float)
  | VInt n =>
      match float_of_Z n with
      | Some x => Ok x
      | None => Raise OverflowError
      end
  | VFloat x => Ok x
  | VStr s =>
      match float_of_str s with
      | Some x => Ok x
      | None => Raise ValueError
      end
  | VList _ | VDict _ => Raise TypeError
  end.

(** [int(v)] *)
Definition py_int (v : value) : result Z :=
  match v with
  | VNone => Raise TypeError
  | VBool b => Ok (if b then 1 else 0)
  | VInt n => Ok n
  | VFloat x => Z_of_float x
  | VStr s =>
      match int_of_str s with
      | Some n => Ok n
      | None => Raise ValueError
      end
  | VList _ | VDict _ => Raise TypeError
  end.

(** Truth value of [v], as [or] and [if] test it. *)
Definition truthy (v : value) : bool :=
  match v with
  | VNone => false
  | VBool b => b
  | VInt n => negb (n =? 0)
  | VFloat x => negb (x =? 0)%float
  | VStr s => negb (String.eqb s EmptyString)
  | VList l => negb (bool_decide (length l = 0%nat))
  | VDict d => negb (bool_decide (length d = 0%nat))
  end.

(** [v or w] *)
Definition py_or (v w : value) : value := if truthy v then v else w.

Definition START_BALANCE : float := 5000%float.

(** [try: x = float(v)] / [except Exception: x = START_BALANCE] *)
Definition float_or_start (v : value) : float :=
  match py_float v with
  | Ok x => x
  | Raise _ => START_BALANCE
  end.

(** *** [compute_podium_snapshot] *)

Record podium_entry : Type := {
  pe_position : Z;
  pe_user_id : string;
  pe_nickname : value;
  pe_balance : float
}.

(** The users mapping: a dict, in insertion order. *)
Abbreviation users_map := (list (string * record)).

(** The triples [(uid, nickname, bal)] appended to [arr], in the order of
    [users.items()]. *)
Definition podium_arr (users : users_map) : list (string * value * float) :=
  map (fun '(uid, u) =>
         (uid, get u "nickname" (VStr EmptyString),
          float_or_start (get u "balance" (VFloat START_BALANCE))))
      users.

(** The sort key [lambda x: x[2]]. *)
Definition arr_bal (t : string * value * float) : float := snd t.

(** [arr] after [arr.sort(key=lambda x: x[2], reverse=True)] *)
Definition podium_ranked (users : users_map) : list (string * value * float) :=
  sort_desc arr_bal (podium_arr users).

(** The entry appended for [arr[i]]. *)
Definition podium_of (i : nat) (t : string * value * float) : podium_entry :=
  let '(uid, nick, bal) := t in
  {| pe_position := Z.of_nat i + 1;
     pe_user_id := uid;
     pe_nickname := nick;
     pe_balance := round2 bal |}.

Definition compute_podium_snapshot (users : users_map) (top_n : Z)
  : list podium_entry :=
  let arr := podium_ranked users in
  imap podium_of (take (Z.to_nat (Z.min top_n (Z.of_nat (length arr)))) arr).

(** *** [compute_user_metrics] *)

Record metrics : Type := {
  m_performance : float;
  m_win_rate : float;
  m_trades_this_period : Z;
  m_wins : Z;
  m_period_start_balance : float;
  m_balance : float
}.

(** The branch on [start == 0] and the percentage of the other branch. *)
Definition performance_of (balance start : float) : float :=
  if (start =? 0)%float then 0%float
  else (((balance - start) / start) * 100)%float.

Definition compute_user_metrics (user_record : record) : result metrics :=
  let balance :=
    float_or_start (get user_record "balance" (VFloat START_BALANCE)) in
  let start :=
    float_or_start
      (get user_record "period_start_balance" (VFloat START_BALANCE)) in
  let performance := performance_of balance start in
  trades ← py_int (py_or (get user_record "trades" (VInt 0)) (VInt 0));
  wins ← py_int (py_or (get user_record "wins" (VInt 0)) (VInt 0));
  win_rate ← (if trades <=? 0 then Ok 0%float
              else q ← int_truediv wins trades; Ok (q * 100)%float);
  Ok {| m_performance := round2 performance;
        m_win_rate := round2 win_rate;
        m_trades_this_period := trades;
        m_wins := wins;
        m_period_start_balance := round2 start;
        m_balance := round2 balance |}.

(** ** The persisted document and the world around a request *)

Record winners_entry : Type := {
  we_podium : list podium_entry;
  we_closed_at : string
}.

(** The document of [data/leaderboard.json].  A key missing from the file
    reads as the empty mapping (or [None]) through [db.get] and is created by
    [db.setdefault], so the three keys are fields here. *)
Record document : Type := {
  users : users_map;
  monthly_winners : gmap string winners_entry;
  last_month_closed : option string
}.

Definition default_db : document :=
  {| users := []; monthly_winners := ∅; last_month_closed := None |}.

Definition set_users (db : document) (us : users_map) : document :=
  {| users := us;
     monthly_winners := monthly_winners db;
     last_month_closed := last_month_closed db |}.

Definition set_monthly_winners (db : document)
  (mw : gmap string winners_entry) : document :=
  {| users := users db;
     monthly_winners := mw;
     last_month_closed := last_month_closed db |}.

Definition set_last_month_closed (db : document) (m : option string)
  : document :=
  {| users := users db;
     monthly_winners := monthly_winners db;
     last_month_closed := m |}.

(** What a request can read and change: the file ([None] while it does not
    exist) and the clock, of which every call of [datetime.utcnow()] takes
    the next reading. *)
Record world : Type := {
  disk : option document;
  clock : nat -> datetime;
  ticks : nat
}.

Definition set_disk (w : world) (d : option document) : world :=
  {| disk := d; clock := clock w; ticks := ticks w |}.

(** The document a request reads from [w]. *)
Definition persisted (w : world) : document := default default_db (disk w).

(** A request handler: it returns or raises, and leaves a world.  All
    handlers run under the one lock [_lock], so they run one after the
    other. *)
Definition M (A : Type) : Type := world -> result A * world.

#[global] Instance M_ret : MRet M := fun _ a w => (Ok a, w).
#[global] Instance M_bind : MBind M := fun _ _ f m w =>
  match m w with
  | (Ok a, w') => f a w'
  | (Raise e, w') => (Raise e, w')
  end.

Definition raise {A : Type} (e : exn) : M A := fun w => (Raise e, w).

Definition lift {A : Type} (r : result A) : M A := fun w => (r, w).

(** [datetime.utcnow()] *)
Definition utcnow : M datetime := fun w =>
  (Ok (clock w (ticks w)),
   {| disk := disk w; clock := clock w; ticks := S (ticks w) |}).

Definition _now_iso : M string :=
  dt ← utcnow; mret (isoformat dt +:+ "Z").

Definition _read_db : M document := fun w =>
  match disk w with
  | Some db => (Ok db, w)
  | None => (Ok default_db, set_disk w (Some default_db))
  end.

Definition _write_db (data : document) : M unit := fun w =>
  (Ok tt, set_disk w (Some data)).

Definition _get_month_key : M string :=
  dt ← utcnow; mret (strftime_Ym dt).

Definition _prev_month_key : M string :=
  dt ← utcnow;
  let first := replace_day1 dt in
  let prev_last := minus_one_day first in
  mret (strftime_Ym prev_last).

(** ** Dict operations on the users mapping *)

(** [users.get(user_id)] *)
Fixpoint users_get (user_id : string) (us : users_map) : option record :=
  match us with
  | [] => None
  | (k, u) :: us' => if decide (k = user_id) then Some u else users_get user_id us'
  end.

(** [users[user_id] = u]: in place for a key of the dict, at the end for a
    new key. *)
Fixpoint users_set (user_id : string) (u : record) (us : users_map)
  : users_map :=
  match us with
  | [] => [(user_id, u)]
  | (k, v) :: us' =>
      if decide (k = user_id) then (k, u) :: us'
      else (k, v) :: users_set user_id u us'
  end.

(** The record [users.setdefault(user_id, {...})] inserts for a new user. *)
Definition new_user : record :=
  {[ "nickname" := VStr EmptyString;
     "balance" := VFloat START_BALANCE;
     "last_update" := VNone;
     "trades" := VInt 0;
     "wins" := VInt 0;
     "period_start_balance" := VFloat START_BALANCE ]}.

(** The four [u.setdefault] calls both writers make. *)
Definition ensure_fields (u : record) : record :=
  setdefault "balance" (VFloat START_BALANCE)
    (setdefault "period_start_balance" (VFloat START_BALANCE)
       (setdefault "wins" (VInt 0)
          (setdefault "trades" (VInt 0) u))).

(** ** Request and response bodies *)

Record UserUpdate : Type := {
  upd_nickname : option string;
  upd_balance : option float;
  upd_trades : option Z;
  upd_wins : option Z;
  upd_period_start_balance : option float
}.

Record TradeRecord : Type := {
  tr_result : string;
  tr_amount : option float
}.

Record leaderboard_row : Type := {
  lb_user_id : string;
  lb_nickname : value;
  lb_balance : float;
  lb_performance : float;
  lb_win_rate : float;
  lb_trades_this_period : Z
}.

Record user_view : Type := {
  uv_user_id : string;
  uv_nickname : value;
  uv_balance : float;
  uv_performance : float;
  uv_win_rate : float;
  uv_trades_this_period : Z;
  uv_wins : Z;
  uv_period_start_balance : float;
  uv_last_update : value
}.

Inductive close_response : Type :=
| already_closed (month : string)
| closed (month : string) (podium : list podium_entry).

Inductive latest_response : Type :=
| no_winners
| latest (month : string) (winners : winners_entry)
    (monthly_winners : gmap string winners_entry).

(** The merged view the user endpoints return. *)
Definition merged_view (user_id : string) (u : record) (m : metrics)
  : user_view :=
  {| uv_user_id := user_id;
     uv_nickname := get u "nickname" (VStr EmptyString);
     uv_balance := m_balance m;
     uv_performance := m_performance m;
     uv_win_rate := m_win_rate m;
     uv_trades_this_period := m_trades_this_period m;
     uv_wins := m_wins m;
     uv_period_start_balance := m_period_start_balance m;
     uv_last_update := get u "last_update" VNone |}.

(** ** The handlers *)

Definition leaderboard_row_of (uid : string) (u : record) (m : metrics)
  : leaderboard_row :=
  {| lb_user_id := uid;
     lb_nickname := get u "nickname" (VStr EmptyString);
     lb_balance := m_balance m;
     lb_performance := m_performance m;
     lb_win_rate := m_win_rate m;
     lb_trades_this_period := m_trades_this_period m |}.

(** The loop of [get_leaderboard] over [users.items()]. *)
Fixpoint leaderboard_arr (us : users_map) : result (list leaderboard_row) :=
  match us with
  | [] => Ok []
  | (uid, u) :: us' =>
      m ← compute_user_metrics u;
      arr ← leaderboard_arr us';
      Ok (leaderboard_row_of uid u m :: arr)
  end.

(** [max(0, min(limit, 1000))] *)
Definition clamp_limit (limit : Z) : Z := Z.max 0 (Z.min limit 1000).

Definition get_leaderboard (limit : Z) : M (list leaderboard_row * string) :=
  db ← _read_db;
  arr ← lift (leaderboard_arr (users db));
  let arr := sort_desc lb_balance arr in
  timestamp ← _now_iso;
  mret (take (Z.to_nat (clamp_limit limit)) arr, timestamp).

(** The view [get_user] returns for a user that has no record. *)
Definition default_view (user_id : string) : user_view :=
  {| uv_user_id := user_id;
     uv_nickname := VStr EmptyString;
     uv_balance := round2 START_BALANCE;
     uv_performance := 0%float;
     uv_win_rate := 0%float;
     uv_trades_this_period := 0;
     uv_wins := 0;
     uv_period_start_balance := round2 START_BALANCE;
     uv_last_update := VNone |}.

(** [if user:] is false for [None] and for the empty dict. *)
Definition get_user (user_id : string) : M user_view :=
  db ← _read_db;
  match users_get user_id (users db) with
  | Some user =>
      if decide (user = ∅) then mret (default_view user_id)
      else
        m ← lift (compute_user_metrics user);
        mret (merged_view user_id user m)
  | None => mret (default_view user_id)
  end.

(** The month rollover at the start of [post_user]. *)
Definition rollover (db : document) : M document :=
  current_month ← _get_month_key;
  if decide (last_month_closed db = Some current_month) then mret db
  else
    prev_month ← _prev_month_key;
    db ← match monthly_winners db !! prev_month with
         | Some _ => mret db
         | None =>
             let podium := compute_podium_snapshot (users db) 3 in
             match podium with
             | [] => mret db
             | _ :: _ =>
                 closed_at ← _now_iso;
                 mret (set_monthly_winners db
                         (<[prev_month := {| we_podium := podium;
                                             we_closed_at := closed_at |}]>
                            (monthly_winners db)))
             end
         end;
    mret (set_last_month_closed db (Some current_month)).

(** The assignments of the fields [upd] provides.  The body was validated
    into floats and ints, on which [float()], [int()] and [round] do not
    raise. *)
Definition apply_update (upd : UserUpdate) (u : record) : record :=
  let u := match upd_nickname upd with
           | Some n => <["nickname" := VStr (str_take 40 n)]> u
           | None => u
           end in
  let u := match upd_balance upd with
           | Some b => <["balance" := VFloat (round2 b)]> u
           | None => u
           end in
  let u := match upd_trades upd with
           | Some t => <["trades" := VInt t]> u
           | None => u
           end in
  let u := match upd_wins upd with
           | Some n => <["wins" := VInt n]> u
           | None => u
           end in
  match upd_period_start_balance upd with
  | Some b => <["period_start_balance" := VFloat (round2 b)]> u
  | None => u
  end.

Definition post_user (user_id : string) (upd : UserUpdate) : M user_view :=
  db ← _read_db;
  db ← rollover db;
  let u := default new_user (users_get user_id (users db)) in
  let u := apply_update upd u in
  let u := ensure_fields u in
  now ← _now_iso;
  let u := <["last_update" := VStr now]> u in
  _ ← _write_db (set_users db (users_set user_id u (users db)));
  m ← lift (compute_user_metrics u);
  mret (merged_view user_id u m).

Definition dquote : string := String (ascii_of_nat 34) EmptyString.

(** The block "apply trade" of [record_trade], once [res] is known to be
    "win" or "lose": the counters, then the balance when an amount is
    given.  [float(tr.amount)] is applied to a float and does not raise;
    the stored fields go through [int()] and [float()] outside any [try]. *)
Definition apply_trade (res : string) (amount : option float) (u : record)
  : result record :=
  trades ← py_int (get u "trades" (VInt 0));
  let u := <["trades" := VInt (trades + 1)]> u in
  u ← (if String.eqb res "win" then
         wins ← py_int (get u "wins" (VInt 0));
         Ok (<["wins" := VInt (wins + 1)]> u)
       else Ok u);
  match amount with
  | Some amt =>
      bal ← py_float (get u "balance" (VFloat START_BALANCE));
      Ok (<["balance" :=
              VFloat (round2 (if String.eqb res "win"
                              then (bal + amt)%float
                              else (bal - amt)%float))]> u)
  | None => Ok u
  end.

Definition invalid_result : exn :=
  HTTPException 400
    ("result must be " +:+ dquote +:+ "win" +:+ dquote +:+ " or "
     +:+ dquote +:+ "lose" +:+ dquote).

Definition record_trade (user_id : string) (tr : TradeRecord) : M user_view :=
  db ← _read_db;
  let u := default new_user (users_get user_id (users db)) in
  let u := ensure_fields u in
  let res := lower (tr_result tr) in
  if negb (String.eqb res "win" || String.eqb res "lose") then
    raise invalid_result
  else
    u ← lift (apply_trade res (tr_amount tr) u);
    now ← _now_iso;
    let u := <["last_update" := VStr now]> u in
    _ ← _write_db (set_users db (users_set user_id u (users db)));
    m ← lift (compute_user_metrics u);
    mret (merged_view user_id u m).

Definition post_close_month : M close_response :=
  db ← _read_db;
  prev_month ← _prev_month_key;
  match monthly_winners db !! prev_month with
  | Some _ => mret (already_closed prev_month)
  | None =>
      let podium := compute_podium_snapshot (users db) 3 in
      closed_at ← _now_iso;
      let db := set_monthly_winners db
                  (<[prev_month := {| we_podium := podium;
                                      we_closed_at := closed_at |}]>
                     (monthly_winners db)) in
      current_month ← _get_month_key;
      let db := set_last_month_closed db (Some current_month) in
      _ ← _write_db db;
      mret (closed prev_month podium)
  end.

Definition get_winners (month : string) : M (string * winners_entry) :=
  db ← _read_db;
  match monthly_winners db !! month with
  | Some winners => mret (month, winners)
  | None => raise (HTTPException 404 "No winners for that month")
  end.

(** The item of the last key of [sorted(mw.keys())]. *)
Definition last_sorted {V : Type} (items : list (string * V))
  : option (string * V) :=
  foldr (fun kv acc =>
           match acc with
           | None => Some kv
           | Some kv' => Some (if String.ltb (fst kv') (fst kv) then kv else kv')
           end) None items.

Definition get_latest_winners : M latest_response :=
  db ← _read_db;
  let mw := monthly_winners db in
  match last_sorted (map_to_list mw) with
  | None => mret no_winners
  | Some (last_month, winners) => mret (latest last_month winners mw)
  end.

(** ** The public operations as one transition system *)

Inductive request : Type :=
| GET_leaderboard (limit : Z)
| GET_user (user_id : string)
| POST_user (user_id : string) (upd : UserUpdate)
| POST_trade (user_id : string) (tr : TradeRecord)
| POST_close_month
| GET_winners (month : string)
| GET_latest_winners.

(** The world a request leaves, whether it returned or raised. *)
Definition serve (r : request) (w : world) : world :=
  match r with
  | GET_leaderboard limit => snd (get_leaderboard limit w)
  | GET_user user_id => snd (get_user user_id w)
  | POST_user user_id upd => snd (post_user user_id upd w)
  | POST_trade user_id tr => snd (record_trade user_id tr w)
  | POST_close_month => snd (post_close_month w)
  | GET_winners month => snd (get_winners month w)
  | GET_latest_winners => snd (get_latest_winners w)
  end.

(** ** Vocabulary of the properties *)

(** *** The order of binary64 numbers

    A float that is not NaN has a place on a line: its class (infinities at
    the ends, zeros in the middle), then its exponent and mantissa, negated
    for a negative number. *)
Definition SF_rank (x : spec_float) : Z * Z * Z :=
  match x with
  | S754_nan => (0, 0, 0)
  | S754_zero _ => (0, 0, 0)
  | S754_infinity s => (if s then -2 else 2, 0, 0)
  | S754_finite s m e => if s then (-1, - e, - Zpos m) else (1, e, Zpos m)
  end.

Definition rank (x : float) : Z * Z * Z := SF_rank (Prim2SF x).

Definition lex_lt (a b : Z * Z * Z) : Prop :=
  let '(c1, e1, m1) := a in
  let '(c2, e2, m2) := b in
  c1 < c2 \/ (c1 = c2 /\ (e1 < e2 \/ (e1 = e2 /\ m1 < m2))).

Definition SF_is_nan (x : spec_float) : bool :=
  match x with
  | S754_nan => true
  | _ => false
  end.

(** [a] may stand before [b] in a list sorted descending by [key]:
    [key a >= key b]. *)
Definition ge_key {A : Type} (key : A -> float) (a b : A) : Prop :=
  (key b <=? key a)%float = true.

Definition no_nan_keys {A : Type} (key : A -> float) (l : list A) : Prop :=
  Forall (fun a => is_nan (key a) = false) l.

(** The elements of [l] whose key equals [v], in their order in [l]. *)
Definition with_key {A : Type} (key : A -> float) (v : float) (l : list A)
  : list A :=
  filter (fun a => (key a =? v)%float = true) l.

(** The value [ensure_fields] stores under a missing key. *)
Definition field_default (k : string) : option value :=
  if decide (k = "trades") then Some (VInt 0)
  else if decide (k = "wins") then Some (VInt 0)
  else if decide (k = "period_start_balance") then Some (VFloat START_BALANCE)
  else if decide (k = "balance") then Some (VFloat START_BALANCE)
  else None.

(** The value [apply_update] stores under [k], when [upd] provides one. *)
Definition update_of (upd : UserUpdate) (k : string) : option value :=
  if decide (k = "period_start_balance")
  then (fun b => VFloat (round2 b)) <$> upd_period_start_balance upd
  else if decide (k = "wins") then VInt <$> upd_wins upd
  else if decide (k = "trades") then VInt <$> upd_trades upd
  else if decide (k = "balance")
  then (fun b => VFloat (round2 b)) <$> upd_balance upd
  else if decide (k = "nickname")
  then (fun n => VStr (str_take 40 n)) <$> upd_nickname upd
  else None.

(** The value under [k] after an update that does not provide [k]: the
    stored one, or the default of the field for a record that had none. *)
Definition kept (k : string) (u : record) : option value :=
  match u !! k with
  | Some v => Some v
  | None => field_default k
  end.

(** The balance [get_leaderboard] shows for a record. *)
Definition shown_balance (u : record) : float :=
  round2 (float_or_start (get u "balance" (VFloat START_BALANCE))).

(** [row] is the row [get_leaderboard] builds for the item [kv] of the
    users mapping. *)
Definition is_row_of (kv : string * record) (row : leaderboard_row) : Prop :=
  exists m : metrics,
    compute_user_metrics (snd kv) = Ok m /\
    row = leaderboard_row_of (fst kv) (snd kv) m.

(** The field holds the int [n], or is missing or null and [n] is 0. *)
Definition int_or_missing (o : option value) (n : Z) : Prop :=
  (o = None /\ n = 0) \/ (o = Some VNone /\ n = 0) \/ o = Some (VInt n).

(** The key [_prev_month_key] returns at the next clock reading of [w]. *)
Definition prev_month_at (w : world) : string :=
  strftime_Ym (minus_one_day (replace_day1 (clock w (ticks w)))).

(** The exceptions of the runtime: all but [HTTPException]. *)
Definition runtime_exn (e : exn) : Prop :=
  match e with
  | HTTPException _ _ => False
  | _ => True
  end.

(** *** Example data *)

(** The text conversions the instances are run with: no text is taken for a
    number.  No instance converts a text. *)
Definition no_float (s : string) : option float := None.

Definition no_int (s : string) : option Z := None.

Definition noon_4_nov_2026 : datetime :=
  {| year := 2026; month := 11; day := 4;
     hour := 12; minute := 0; second := 0; microsecond := 0 |}.

(** A first start: no file yet. *)
Definition fresh_world : world :=
  {| disk := None; clock := fun _ => noon_4_nov_2026; ticks := 0 |}.

Definition world_of (db : document) : world :=
  {| disk := Some db; clock := fun _ => noon_4_nov_2026; ticks := 0 |}.

Definition trade (result : string) (amount : float) : TradeRecord :=
  {| tr_result := result; tr_amount := Some amount |}.

Definition user_with_balance (b : float) : record :=
  <["balance" := VFloat b]> new_user.

Definition three_users : users_map :=
  [("ann", user_with_balance 5200);
   ("bob", user_with_balance 4800);
   ("cid", user_with_balance 5000)].

(** One balance is NaN, as [json.load] reads the literal [NaN]. *)
Definition users_with_nan : users_map :=
  [("ann", user_with_balance 1);
   ("bob", user_with_balance nan);
   ("cid", user_with_balance 2)].

Definition document_of (us : users_map) : document :=
  {| users := us; monthly_winners := ∅; last_month_closed := None |}.

Definition october_entry : winners_entry :=
  {| we_podium :=
       [{| pe_position := 1; pe_user_id := "ann";
           pe_nickname := VStr EmptyString; pe_balance := 5200 |}];
     we_closed_at := "2026-11-01T00:00:05Z" |}.

(** October 2026 is closed already. *)
Definition closed_october : document :=
  {| users := three_users;
     monthly_winners := {["2026-10" := october_entry]};
     last_month_closed := Some "2026-11" |}.

Definition nickname_only (n : string) : UserUpdate :=
  {| upd_nickname := Some n; upd_balance := None; upd_trades := None;
     upd_wins := None; upd_period_start_balance := None |}.

Definition trades_only (t : Z) : UserUpdate :=
  {| upd_nickname := None; upd_balance := None; upd_trades := Some t;
     upd_wins := None; upd_period_start_balance := None |}.

(** *** Reachable worlds *)

(** The world before the first request: no file, or the empty document. *)
Definition initial (w : world) : Prop :=
  disk w = None \/ disk w = Some default_db.

Definition opt_ok (ok : Z -> Prop) (o : option Z) : Prop :=
  match o with
  | Some n => ok n
  | None => True
  end.

(** The counters a request supplies satisfy [ok]. *)
Definition request_counters (ok : Z -> Prop) (r : request) : Prop :=
  match r with
  | POST_user _ upd => opt_ok ok (upd_trades upd) /\ opt_ok ok (upd_wins upd)
  | _ => True
  end.

Definition any_int (n : Z) : Prop := True.

Definition nonneg (n : Z) : Prop := 0 <= n.

(** The requests that only read. *)
Definition is_read (r : request) : bool :=
  match r with
  | GET_leaderboard _ | GET_user _ | GET_winners _ | GET_latest_winners => true
  | POST_user _ _ | POST_trade _ _ | POST_close_month => false
  end.

(** The worlds the requests satisfying [allowed] lead to from an initial
    one, through any clock. *)
Inductive reachable (allowed : request -> Prop) : world -> Prop :=
| reachable_initial (w : world) :
    initial w -> reachable allowed w
| reachable_serve (r : request) (w : world) :
    reachable allowed w -> allowed r -> reachable allowed (serve r w).

(** The record holds integer counters that satisfy [ok] and a float
    balance. *)
Definition typed_fields (ok : Z -> Prop) (u : record) : Prop :=
  exists (t n : Z) (b : float),
    u !! "trades" = Some (VInt t) /\ u !! "wins" = Some (VInt n) /\
    u !! "balance" = Some (VFloat b) /\ ok t /\ ok n.

(** Every stored record does. *)
Definition typed_records (ok : Z -> Prop) (db : document) : Prop :=
  Forall (fun kv : string * record => typed_fields ok (snd kv)) (users db).

(** *** The months a request reads *)

(** The world after [n] more clock readings. *)
Definition later (n : nat) (w : world) : world :=
  {| disk := disk w; clock := clock w; ticks := n + ticks w |}.

(** The key [_get_month_key] returns at the next clock reading of [w]. *)
Definition month_key_at (w : world) : string :=
  strftime_Ym (clock w (ticks w)).

(** The time [_now_iso] returns at the next clock reading of [w]. *)
Definition now_at (w : world) : string :=
  isoformat (clock w (ticks w)) +:+ "Z".

(** The keys of the users mapping, in insertion order. *)
Definition user_ids (db : document) : list string := (users db).*1.

(** The user a request writes the record of. *)
Definition written_user (r : request) : option string :=
  match r with
  | POST_user user_id _ | POST_trade user_id _ => Some user_id
  | _ => None
  end.

(** Every stored podium has at most [n] entries. *)
Definition podiums_at_most (n : nat) (db : document) : Prop :=
  map_Forall (fun (_ : string) (e : winners_entry) =>
                (length (we_podium e) <= n)%nat)
             (monthly_winners db).


(** A date of the years [strftime_Ym] is meant for. *)
Definition calendar_month (dt : datetime) : Prop :=
  1000 <= year dt <= 9999 /\ 1 <= month dt <= 12.

(** [d1] lies in an earlier month than [d2]. *)
Definition earlier_month (d1 d2 : datetime) : Prop :=
  year d1 < year d2 \/ (year d1 = year d2 /\ month d1 < month d2).


(** *** What a request ends with *)

Definition exn_of {A : Type} (r : result A) : option exn :=
  match r with
  | Ok _ => None
  | Raise e => Some e
  end.

(** The exception request [r] raises in [w], if it raises. *)
Definition raised (r : request) (w : world) : option exn :=
  match r with
  | GET_leaderboard limit => exn_of (fst (get_leaderboard limit w))
  | GET_user user_id => exn_of (fst (get_user user_id w))
  | POST_user user_id upd => exn_of (fst (post_user user_id upd w))
  | POST_trade user_id tr => exn_of (fst (record_trade user_id tr w))
  | POST_close_month => exn_of (fst (post_close_month w))
  | GET_winners month => exn_of (fst (get_winners month w))
  | GET_latest_winners => exn_of (fst (get_latest_winners w))
  end.

Definition not_found : exn := HTTPException 404 "No winners for that month".

(** The user id of the triples and of the entries of a podium. *)
Definition arr_uid (t : string * value * float) : string := fst (fst t).


(** *** More example data *)

Definition new_year_2027 : datetime :=
  {| year := 2027; month := 1; day := 1;
     hour := 0; minute := 0; second := 30; microsecond := 0 |}.

(** The three users on the first of January 2027. *)
Definition january_world : world :=
  {| disk := Some (document_of three_users);
     clock := fun _ => new_year_2027; ticks := 0 |}.

(** November 2026 is marked as evaluated, and October has no entry. *)
Definition marked_november : document :=
  {| users := three_users;
     monthly_winners := ∅;
     last_month_closed := Some "2026-11" |}.

Definition balance_only (b : float) : UserUpdate :=
  {| upd_nickname := None; upd_balance := Some b; upd_trades := None;
     upd_wins := None; upd_period_start_balance := None |}.

(** A nickname of 47 characters. *)
Definition long_nickname : string :=
  "the-longest-nickname-anyone-could-have-typed-in".


(** One trade and more wins than a float can hold a rate of. *)
Definition huge_wins : UserUpdate :=
  {| upd_nickname := None; upd_balance := None; upd_trades := Some 1;
     upd_wins := Some (2 ^ 1024); upd_period_start_balance := None |}.


(** *** Example data with balances that rounding changes

    The decimal literals stand for the binary64 numbers nearest to them, as
    they do in Python. *)
Set Warnings "-inexact-float".

Definition user_named (nick : string) (b : float) : record :=
  <["nickname" := VStr nick]> (user_with_balance b).

(** "bob" and "dan" hold the same balance; "bob" was stored first. *)
Definition tied_users : users_map :=
  [("ann", user_named "Ann" 5200.456);
   ("bob", user_named "Bob" 4800);
   ("cid", user_named "Cid" 5000.004);
   ("dan", user_named "Dan" 4800)].

Definition user_with_balances (b start : float) : record :=
  <["period_start_balance" := VFloat start]> (user_with_balance b).

(** A record whose [trades] is a list. *)
Definition users_with_list : users_map :=
  [("ann", <["trades" := VList [VInt 1]]> new_user)].


(** * Properties *)

(** ** The order of binary64 numbers *)

Ltac sf_compare_cases :=
  repeat match goal with
         | |- context [Z.compare ?a ?b] => destruct (Z.compare_spec a b)
         | |- context [Pos.compare_cont Eq ?a ?b] =>
             change (Pos.compare_cont Eq a b) with (Pos.compare a b);
             destruct (Pos.compare_spec a b)
         end.

Lemma SFcompare_rank (a b : spec_float) :
  SF_is_nan a = false -> SF_is_nan b = false ->
  (SFcompare a b = Some Lt /\ lex_lt (SF_rank a) (SF_rank b)) \/
  (SFcompare a b = Some Eq /\ SF_rank a = SF_rank b) \/
  (SFcompare a b = Some Gt /\ lex_lt (SF_rank b) (SF_rank a)).
Proof.
  destruct a as [sa|sa| |sa ma ea], b as [sb|sb| |sb mb eb];
    simpl; try discriminate; intros _ _;
    try destruct sa; try destruct sb; simpl;
    sf_compare_cases; simpl; subst;
    first [ left; split; [reflexivity | lia]
          | right; left; split; [reflexivity | f_equal; try f_equal; lia ]
          | right; right; split; [reflexivity | lia]
          | idtac ].
Qed.

Lemma SF_is_nan_Prim2SF (x : float) : SF_is_nan (Prim2SF x) = is_nan x.
Proof.
  unfold Prim2SF. destruct (is_nan x); [reflexivity|].
  destruct (is_zero x); [reflexivity|].
  destruct (is_infinity x); [reflexivity|].
  destruct (Z.frexp x) as [r e].
  destruct (shr_fexp _ _ _ _ _) as [sh e'].
  destruct (shr_m sh); reflexivity.
Qed.

Lemma lex_lt_irrefl a : ~ lex_lt a a.
Proof. destruct a as [[c e] m]. unfold lex_lt. lia. Qed.

Lemma lex_lt_asym a b : lex_lt a b -> ~ lex_lt b a.
Proof. destruct a as [[c e] m], b as [[c' e'] m']. unfold lex_lt. lia. Qed.

Lemma lex_lt_trans a b c : lex_lt a b -> lex_lt b c -> lex_lt a c.
Proof.
  destruct a as [[c1 e1] m1], b as [[c2 e2] m2], c as [[c3 e3] m3].
  unfold lex_lt. lia.
Qed.

Lemma lex_lt_total a b : lex_lt a b \/ a = b \/ lex_lt b a.
Proof.
  destruct a as [[c1 e1] m1], b as [[c2 e2] m2]. unfold lex_lt.
  destruct (Z.lt_total c1 c2) as [?|[?|?]]; [lia| |lia].
  destruct (Z.lt_total e1 e2) as [?|[?|?]]; [lia| |lia].
  destruct (Z.lt_total m1 m2) as [?|[?|?]]; [lia| |lia].
  right; left; congruence.
Qed.

(** The three comparisons of two floats that are not NaN, read on the
    line. *)
Lemma float_compare_rank (x y : float) :
  is_nan x = false -> is_nan y = false ->
  ((x <? y)%float = true <-> lex_lt (rank x) (rank y)) /\
  ((x =? y)%float = true <-> rank x = rank y) /\
  ((x <=? y)%float = true <-> lex_lt (rank x) (rank y) \/ rank x = rank y).
Proof.
  intros Hx Hy.
  rewrite FloatAxioms.ltb_spec, FloatAxioms.eqb_spec, FloatAxioms.leb_spec.
  rewrite <- SF_is_nan_Prim2SF in Hx, Hy.
  unfold SFltb, SFeqb, SFleb, rank.
  destruct (SFcompare_rank _ _ Hx Hy) as [[-> H]|[[-> H]|[-> H]]].
  - pose proof (lex_lt_irrefl (SF_rank (Prim2SF y))).
    repeat split; intros; try discriminate; try tauto; try congruence.
  - pose proof (lex_lt_irrefl (SF_rank (Prim2SF y))).
    repeat split; intros; try discriminate; try tauto; try congruence.
  - pose proof (lex_lt_asym _ _ H).
    pose proof (lex_lt_irrefl (SF_rank (Prim2SF y))).
    repeat split; intros; try discriminate; try tauto; try congruence.
    destruct H2; [tauto | congruence].
Qed.

(** A comparison that holds has no NaN operand. *)
Lemma ltb_not_nan (x y : float) :
  (x <? y)%float = true -> is_nan x = false /\ is_nan y = false.
Proof.
  rewrite FloatAxioms.ltb_spec, <- !SF_is_nan_Prim2SF. unfold SFltb.
  destruct (Prim2SF x), (Prim2SF y); simpl; try discriminate; auto.
Qed.

Lemma eqb_not_nan (x y : float) :
  (x =? y)%float = true -> is_nan x = false /\ is_nan y = false.
Proof.
  rewrite FloatAxioms.eqb_spec, <- !SF_is_nan_Prim2SF. unfold SFeqb.
  destruct (Prim2SF x), (Prim2SF y); simpl; try discriminate; auto.
Qed.

Lemma leb_not_nan (x y : float) :
  (x <=? y)%float = true -> is_nan x = false /\ is_nan y = false.
Proof.
  rewrite FloatAxioms.leb_spec, <- !SF_is_nan_Prim2SF. unfold SFleb.
  destruct (Prim2SF x), (Prim2SF y); simpl; try discriminate; auto.
Qed.

Lemma leb_of_not_ltb (x y : float) :
  is_nan x = false -> is_nan y = false ->
  (x <? y)%float = false -> (y <=? x)%float = true.
Proof.
  intros Hx Hy H.
  destruct (float_compare_rank x y Hx Hy) as (Hlt & _ & _).
  destruct (float_compare_rank y x Hy Hx) as (_ & _ & Hle).
  apply Hle. destruct (lex_lt_total (rank x) (rank y)) as [H0|[H0|H0]]; auto.
  apply Hlt in H0. congruence.
Qed.

Lemma leb_of_ltb (x y : float) :
  (x <? y)%float = true -> (x <=? y)%float = true.
Proof.
  intros H. destruct (ltb_not_nan _ _ H) as [Hx Hy].
  destruct (float_compare_rank x y Hx Hy) as (Hlt & _ & Hle).
  apply Hle. left. now apply Hlt.
Qed.

Lemma leb_trans (x y z : float) :
  (x <=? y)%float = true -> (y <=? z)%float = true -> (x <=? z)%float = true.
Proof.
  intros H1 H2.
  destruct (leb_not_nan _ _ H1) as [Hx Hy], (leb_not_nan _ _ H2) as [_ Hz].
  destruct (float_compare_rank x y Hx Hy) as (_ & _ & Hxy).
  destruct (float_compare_rank y z Hy Hz) as (_ & _ & Hyz).
  destruct (float_compare_rank x z Hx Hz) as (_ & _ & Hxz).
  apply Hxz. apply Hxy in H1. apply Hyz in H2.
  destruct H1 as [H1|H1], H2 as [H2|H2].
  - left. eapply lex_lt_trans; eauto.
  - left. now rewrite <- H2.
  - left. now rewrite H1.
  - right. congruence.
Qed.

(** A float equal to [v] is below no float equal to [v]. *)
Lemma ltb_eqb_false (x y v : float) :
  (x =? v)%float = true -> (x <? y)%float = true -> (y =? v)%float = false.
Proof.
  intros He Hl.
  destruct (eqb_not_nan _ _ He) as [Hx Hv], (ltb_not_nan _ _ Hl) as [_ Hy].
  destruct (float_compare_rank x v Hx Hv) as (_ & Hxv & _).
  destruct (float_compare_rank x y Hx Hy) as (Hxy & _ & _).
  destruct (float_compare_rank y v Hy Hv) as (_ & Hyv & _).
  apply Hxv in He. apply Hxy in Hl.
  destruct (y =? v)%float eqn:E; [|reflexivity].
  assert (rank y = rank v) as Hr by now apply Hyv.
  rewrite He, <- Hr in Hl. now apply lex_lt_irrefl in Hl.
Qed.

(** ** The range of the correctly rounded quotient *)

Lemma digits2_pos_size (p : positive) : digits2_pos p = Pos.size p.
Proof. induction p; simpl; congruence. Qed.

(** [Zdigits2 m] is the number of binary digits of [m]. *)
Lemma Zdigits2_bound (m k : Z) :
  0 <= m -> 0 <= k -> m < 2 ^ k -> Zdigits2 m <= k.
Proof.
  intros Hm Hk Hlt. destruct m as [|p|p]; simpl; try lia.
  rewrite digits2_pos_size.
  assert (Z.pos (2 ^ Pos.size p) <= Z.pos p~0) as H
      by (apply Pos2Z.pos_le_pos, Pos.size_le).
  rewrite Pos2Z.inj_pow in H.
  destruct (Z.le_gt_cases (Z.pos (Pos.size p)) k) as [?|Hgt]; [assumption|].
  exfalso.
  assert (2 ^ (k + 1) <= 2 ^ Z.pos (Pos.size p)) as H0
      by (apply Z.pow_le_mono_r; lia).
  rewrite Z.pow_add_r in H0 by lia. lia.
Qed.

Lemma Zdigits2_gt (m : Z) : 0 <= m -> m < 2 ^ Zdigits2 m.
Proof.
  intros Hm. destruct m as [|p|p]; simpl; try lia.
  rewrite digits2_pos_size.
  assert (Z.pos p < Z.pos (2 ^ Pos.size p)) as H
      by (apply Pos2Z.pos_lt_pos, Pos.size_gt).
  now rewrite Pos2Z.inj_pow in H.
Qed.

Lemma Zdigits2_nonneg (m : Z) : 0 <= Zdigits2 m.
Proof. destruct m; simpl; lia. Qed.

(** *** The exponent [binary_round_aux] ends with *)

Lemma shr_1_digits (mrs : shr_record) (k : Z) :
  0 <= shr_m mrs -> Zdigits2 (shr_m mrs) <= k ->
  0 <= shr_m (shr_1 mrs) /\ Zdigits2 (shr_m (shr_1 mrs)) <= Z.max 0 (k - 1).
Proof.
  destruct mrs as [m r s]. simpl. intros Hm Hk.
  destruct m as [|[p|p|]|p]; simpl in *; lia.
Qed.

Lemma iter_shr_1_digits (p : positive) (mrs : shr_record) (k : Z) :
  0 <= shr_m mrs -> Zdigits2 (shr_m mrs) <= k ->
  0 <= shr_m (SpecFloat.iter_pos shr_1 p mrs) /\
  Zdigits2 (shr_m (SpecFloat.iter_pos shr_1 p mrs)) <= Z.max 0 (k - Z.pos p).
Proof.
  revert mrs k. induction p as [p IH|p IH|]; intros mrs k Hm Hk; simpl.
  - destruct (shr_1_digits mrs k Hm Hk) as [H1 H2].
    destruct (IH _ _ H1 H2) as [H3 H4].
    destruct (IH _ _ H3 H4) as [H5 H6]. split; [exact H5 | lia].
  - destruct (IH _ _ Hm Hk) as [H3 H4].
    destruct (IH _ _ H3 H4) as [H5 H6]. split; [exact H5 | lia].
  - destruct (shr_1_digits mrs k Hm Hk) as [H1 H2]. split; [exact H1 | lia].
Qed.

Lemma shr_record_of_loc_m (m : Z) (l : location) :
  shr_m (shr_record_of_loc m l) = m.
Proof. destruct l as [|[| |]]; reflexivity. Qed.

(** After [shr_fexp] the digits and the exponent are bounded by what they
    were, and the exponent by the format. *)
Lemma shr_fexp_bound (m e : Z) (l : location) (k : Z) :
  0 <= m -> Zdigits2 m + e <= k -> e <= k - prec -> emin <= k - prec ->
  let '(mrs, e') := shr_fexp prec emax m e l in
  0 <= shr_m mrs /\ Zdigits2 (shr_m mrs) + e' <= k /\ e' <= k - prec.
Proof.
  intros Hm Hk He Hmin. unfold shr_fexp, shr.
  pose proof (shr_record_of_loc_m m l) as Hr.
  destruct (fexp prec emax (Zdigits2 m + e) - e) as [|p|p] eqn:E.
  - rewrite Hr. lia.
  - assert (0 <= shr_m (shr_record_of_loc m l)) as H0 by (rewrite Hr; lia).
    assert (Zdigits2 (shr_m (shr_record_of_loc m l)) <= Zdigits2 m) as H1
        by (rewrite Hr; lia).
    destruct (iter_shr_1_digits p _ _ H0 H1) as [H2 H3].
    unfold fexp, SpecFloat.emin, prec, emax in *. repeat split; try lia.
  - rewrite Hr. lia.
Qed.

Lemma round_nearest_even_bound (m : Z) (l : location) :
  0 <= m -> m <= round_nearest_even m l <= m + 1.
Proof.
  intros Hm. destruct l as [|[| |]]; simpl; try lia.
  destruct (Z.even m); lia.
Qed.

Lemma Zdigits2_succ (m m' : Z) :
  0 <= m -> 0 <= m' <= m + 1 -> Zdigits2 m' <= Zdigits2 m + 1.
Proof.
  intros Hm Hm'. pose proof (Zdigits2_gt m Hm). pose proof (Zdigits2_nonneg m).
  apply Zdigits2_bound; try lia.
  rewrite Z.pow_add_r by lia. lia.
Qed.

(** [binary_round_aux] returns no infinity for a mantissa and exponent
    whose product is below [2 ^ (emax - 1)]. *)
Lemma binary_round_aux_finite (s : bool) (m e : Z) (l : location) :
  0 <= m -> Zdigits2 m + e <= emax - 1 -> e <= emax - 1 - prec ->
  is_infinite_SF (binary_round_aux prec emax s m e l) = false.
Proof.
  intros Hm Hk He. unfold binary_round_aux.
  pose proof (shr_fexp_bound m e l (emax - 1) Hm Hk) as H1.
  destruct (shr_fexp prec emax m e l) as [mrs' e'].
  destruct H1 as (H1 & H2 & H3);
    [exact He | unfold emax, prec, SpecFloat.emin; lia |].
  pose proof (round_nearest_even_bound (shr_m mrs') (loc_of_shr_record mrs') H1) as Hr.
  set (m1 := round_nearest_even (shr_m mrs') (loc_of_shr_record mrs')) in *.
  assert (Zdigits2 m1 <= Zdigits2 (shr_m mrs') + 1) as Hd
      by (apply Zdigits2_succ; lia).
  pose proof (shr_fexp_bound m1 e' loc_Exact emax) as H4.
  destruct (shr_fexp prec emax m1 e' loc_Exact) as [mrs'' e''].
  destruct H4 as (H4 & H5 & H6);
    [lia | lia | lia | unfold emax, prec, SpecFloat.emin; lia |].
  destruct (shr_m mrs''); try reflexivity.
  destruct (e'' <=? emax - prec) eqn:E; [reflexivity|].
  apply Z.leb_gt in E. lia.
Qed.

Lemma SF_of_ratio_finite (s : bool) (n d : positive) :
  Z.pos n < 2 ^ (emax - 1) -> is_infinite_SF (SF_of_ratio s n d) = false.
Proof.
  intros Hn. unfold SF_of_ratio, SFdiv, SFdiv_core_binary.
  set (e' := Z.min (fexp prec emax (Zdigits2 (Z.pos n) + 0 - (Zdigits2 (Z.pos d) + 0))) (0 - 0)).
  assert (e' <= 0) as He' by (unfold e'; lia).
  set (m' := match 0 - 0 - e' with
             | Z.pos _ => Z.shiftl (Z.pos n) (0 - 0 - e')
             | 0 => Z.pos n
             | Z.neg _ => 0
             end).
  assert (0 <= m' < 2 ^ (emax - 1 - e')) as Hm'.
  { unfold m'. destruct (0 - 0 - e') as [|p|p] eqn:E; try lia.
    - replace (emax - 1 - e') with (emax - 1) by lia. lia.
    - rewrite Z.shiftl_mul_pow2 by lia.
      replace (emax - 1 - e') with (emax - 1 + Z.pos p) by lia.
      rewrite Z.pow_add_r by (unfold emax; lia).
      assert (0 < 2 ^ Z.pos p) by (apply Z.pow_pos_nonneg; lia). nia. }
  pose proof (Z.div_eucl_eq m' (Z.pos d) ltac:(lia)) as Hq.
  pose proof (Z.mod_pos_bound m' (Z.pos d) ltac:(lia)) as Hr.
  unfold Z.modulo in Hr.
  destruct (Z.div_eucl m' (Z.pos d)) as [q r].
  assert (0 <= q <= m') as Hqb by nia.
  apply binary_round_aux_finite.
  - lia.
  - assert (Zdigits2 q <= emax - 1 - e'); [|lia].
    apply Zdigits2_bound; try lia. unfold emax; lia.
  - unfold emax, prec. lia.
Qed.

(** ** The stable descending sort *)
Section SortFacts.
Context {A : Type} (key : A -> float).

Lemma insert_desc_perm (x : A) (l : list A) :
  insert_desc key x l ≡ₚ x :: l.
Proof.
  induction l as [|y l IH]; simpl; [reflexivity|].
  destruct (key x <? key y)%float; [|reflexivity].
  rewrite IH. apply Permutation_swap.
Qed.

Lemma sort_desc_perm (l : list A) : sort_desc key l ≡ₚ l.
Proof.
  induction l as [|x l IH]; simpl; [reflexivity|].
  rewrite insert_desc_perm. now rewrite IH.
Qed.

Lemma sort_desc_length (l : list A) : length (sort_desc key l) = length l.
Proof. apply Permutation_length, sort_desc_perm. Qed.

Lemma insert_desc_sorted (x : A) (l : list A) :
  is_nan (key x) = false -> no_nan_keys key l ->
  StronglySorted (ge_key key) l ->
  StronglySorted (ge_key key) (insert_desc key x l).
Proof.
  intros Hx Hl Hs. induction Hs as [|y l Hs IH Hy]; simpl.
  - repeat constructor.
  - inversion Hl as [|? ? Hny Hnl]; subst.
    destruct (key x <? key y)%float eqn:E.
    + constructor; [auto|].
      rewrite insert_desc_perm. constructor; [|exact Hy].
      unfold ge_key. now apply leb_of_ltb.
    + assert (ge_key key x y) as Hxy by (now apply leb_of_not_ltb).
      constructor; [now constructor|].
      constructor; [exact Hxy|].
      eapply Forall_impl; [exact Hy|]. intros z Hz. unfold ge_key in *.
      eapply leb_trans; eassumption.
Qed.

(** Without NaN among the keys the result is sorted: every element is at
    least every later one. *)
Lemma sort_desc_sorted (l : list A) :
  no_nan_keys key l -> StronglySorted (ge_key key) (sort_desc key l).
Proof.
  induction 1 as [|x l Hx Hl IH]; simpl; [constructor|].
  apply insert_desc_sorted; auto.
  unfold no_nan_keys. now rewrite sort_desc_perm.
Qed.

Lemma insert_desc_with_key (v : float) (x : A) (l : list A) :
  with_key key v (insert_desc key x l) = with_key key v (x :: l).
Proof.
  unfold with_key.
  induction l as [|y l IH]; [reflexivity|]. simpl.
  destruct (key x <? key y)%float eqn:E; [|reflexivity].
  rewrite filter_cons, IH, !filter_cons.
  destruct (decide ((key y =? v)%float = true)) as [Hy|Hy];
    destruct (decide ((key x =? v)%float = true)) as [Hx|Hx]; try reflexivity.
  pose proof (ltb_eqb_false _ _ _ Hx E). congruence.
Qed.

(** Stability: the elements of one key come out in the order in which they
    went in. *)
Lemma sort_desc_stable (v : float) (l : list A) :
  with_key key v (sort_desc key l) = with_key key v l.
Proof.
  induction l as [|x l IH]; [reflexivity|]. simpl.
  rewrite insert_desc_with_key. unfold with_key in *.
  rewrite !filter_cons, IH. reflexivity.
Qed.

End SortFacts.

(** ** [compute_podium_snapshot] *)

Lemma podium_arr_length (us : users_map) :
  length (podium_arr us) = length us.
Proof. unfold podium_arr. apply length_map. Qed.

Lemma podium_ranked_length (us : users_map) :
  length (podium_ranked us) = length us.
Proof.
  unfold podium_ranked. now rewrite sort_desc_length, podium_arr_length.
Qed.

Lemma compute_podium_snapshot_nil (top_n : Z) :
  compute_podium_snapshot [] top_n = [].
Proof.
  unfold compute_podium_snapshot. simpl. now destruct (Z.to_nat _).
Qed.

Lemma podium_arr_elem (us : users_map) (t : string * value * float) :
  t ∈ podium_arr us ->
  exists (uid : string) (u : record),
    (uid, u) ∈ us /\
    t = (uid, get u "nickname" (VStr EmptyString),
         float_or_start (get u "balance" (VFloat START_BALANCE))).
Proof.
  unfold podium_arr. induction us as [|[uid u] us IH]; simpl; intros Ht.
  - now apply elem_of_nil in Ht.
  - apply elem_of_cons in Ht as [->|Ht].
    + exists uid, u. split; [left | reflexivity].
    + destruct (IH Ht) as (uid' & u' & Hin & ->).
      exists uid', u'. split; [now right | reflexivity].
Qed.

(** C5 (as amended).  For every users mapping and every [top_n] the podium
    has [max(0, min(top_n, number of users))] entries, entry [i] has
    position [i + 1], and every entry carries the id and the nickname of a
    stored user with the balance of that user coerced to float and rounded to
    two decimals.  When no balance, once coerced to float, is NaN, entry [i]
    is the user at rank [i] of a ranking that is a rearrangement of the
    users, non-increasing by balance, with the users of one balance in
    insertion order.  Of four users with the balances 5200.456, 4800,
    5000.004 and 4800 the podium of three holds the first with 5200.46, the
    third with 5000.0 and the second, stored before the fourth, with
    4800.0. *)
Theorem podium_snapshot_spec :
  (forall (us : users_map) (top_n : Z),
      let podium := compute_podium_snapshot us top_n in
      Z.of_nat (length podium) = Z.max 0 (Z.min top_n (Z.of_nat (length us))) /\
      (forall (i : nat) (e : podium_entry),
          podium !! i = Some e ->
          pe_position e = Z.of_nat i + 1 /\
          exists (uid : string) (u : record),
            (uid, u) ∈ us /\
            pe_user_id e = uid /\
            pe_nickname e = get u "nickname" (VStr EmptyString) /\
            pe_balance e
            = round2 (float_or_start
                        (get u "balance" (VFloat START_BALANCE))))) /\
  (forall (us : users_map) (top_n : Z),
      no_nan_keys arr_bal (podium_arr us) ->
      let podium := compute_podium_snapshot us top_n in
      let ranked := podium_ranked us in
      (forall (i : nat) (e : podium_entry),
          podium !! i = Some e ->
          exists uid nick bal,
            ranked !! i = Some (uid, nick, bal) /\
            pe_user_id e = uid /\ pe_nickname e = nick /\
            pe_balance e = round2 bal) /\
      ranked ≡ₚ podium_arr us /\
      (forall v : float,
          with_key arr_bal v ranked = with_key arr_bal v (podium_arr us)) /\
      StronglySorted (ge_key arr_bal) ranked) /\
  compute_podium_snapshot tied_users 3
  = [ {| pe_position := 1; pe_user_id := "ann";
         pe_nickname := VStr "Ann"; pe_balance := 5200.46 |};
      {| pe_position := 2; pe_user_id := "cid";
         pe_nickname := VStr "Cid"; pe_balance := 5000 |};
      {| pe_position := 3; pe_user_id := "bob";
         pe_nickname := VStr "Bob"; pe_balance := 4800 |} ].
Proof.
  split; [|split].
  - intros us top_n podium. subst podium. unfold compute_podium_snapshot.
    split.
    + rewrite length_imap, length_take, podium_ranked_length. lia.
    + intros i e H. rewrite list_lookup_imap in H.
      destruct (take _ _ !! i) as [[[uid nick] bal]|] eqn:E; [|discriminate].
      simpl in H. injection H as <-. split; [reflexivity|].
      apply lookup_take_Some in E as [E _].
      apply list_elem_of_lookup_2 in E.
      unfold podium_ranked in E. rewrite sort_desc_perm in E.
      destruct (podium_arr_elem _ _ E) as (uid' & u & Hin & [= -> -> ->]).
      exists uid', u. auto.
  - intros us top_n Hnan podium ranked. subst podium ranked.
    unfold compute_podium_snapshot. repeat split.
    + intros i e H. rewrite list_lookup_imap in H.
      destruct (take _ _ !! i) as [[[uid nick] bal]|] eqn:E; [|discriminate].
      simpl in H. injection H as <-.
      apply lookup_take_Some in E as [E _].
      exists uid, nick, bal. repeat split; auto.
    + apply sort_desc_perm.
    + intros v. apply sort_desc_stable.
    + now apply sort_desc_sorted.
  - vm_compute. reflexivity.
Qed.

(** ** [compute_user_metrics] *)

Lemma round2_zero : round2 0%float = 0%float.
Proof. vm_compute. reflexivity. Qed.

(** C7.  The performance [compute_user_metrics] returns is [0.0] when the
    coerced [period_start_balance] equals zero, and otherwise
    [(balance - start) / start * 100] rounded to two decimals: a balance of
    5001 over a start of 7000 gives -28.56 (from -28.557142857142857), 5100
    over 4800 gives 6.25, and 5100 over a start of 0 gives 0.0. *)
Theorem performance_formula :
  (forall (user_record : record) (m : metrics),
      compute_user_metrics user_record = Ok m ->
      let balance :=
        float_or_start (get user_record "balance" (VFloat START_BALANCE)) in
      let start :=
        float_or_start
          (get user_record "period_start_balance" (VFloat START_BALANCE)) in
      ((start =? 0)%float = true -> m_performance m = 0%float) /\
      ((start =? 0)%float = false ->
       m_performance m = round2 (((balance - start) / start) * 100)%float)) /\
  (exists m : metrics,
      compute_user_metrics (user_with_balances 5001 7000) = Ok m /\
      (((5001 - 7000) / 7000) * 100)%float = (-28.557142857142857)%float /\
      m_performance m = (-28.56)%float) /\
  (exists m : metrics,
      compute_user_metrics (user_with_balances 5100 4800) = Ok m /\
      m_performance m = 6.25%float) /\
  (exists m : metrics,
      compute_user_metrics (user_with_balances 5100 0) = Ok m /\
      m_performance m = 0%float).
Proof.
  split; [|split; [|split]].
  - intros user_record m H balance start. subst balance start.
    unfold compute_user_metrics, performance_of in *.
    destruct (py_int (py_or (get user_record "trades" _) _)) as [t|];
      [|discriminate].
    destruct (py_int (py_or (get user_record "wins" _) _)) as [n|];
      [|discriminate].
    simpl in H.
    destruct (if t <=? 0 then _ else _) as [wr|]; [|discriminate].
    simpl in H. injection H as <-. simpl.
    split; intros ->; [apply round2_zero | reflexivity].
  - eexists. split; [vm_compute; reflexivity|].
    split; vm_compute; reflexivity.
  - eexists. split; vm_compute; reflexivity.
  - eexists. split; vm_compute; reflexivity.
Qed.

(** When [compute_user_metrics] returns: both counters convert to ints and
    the win rate, where it is computed, is in range. *)
Lemma compute_user_metrics_returns (user_record : record) :
  is_Ok (compute_user_metrics user_record) <->
  exists t n : Z,
    py_int (py_or (get user_record "trades" (VInt 0)) (VInt 0)) = Ok t /\
    py_int (py_or (get user_record "wins" (VInt 0)) (VInt 0)) = Ok n /\
    (t <= 0 \/ is_Ok (int_truediv n t)).
Proof.
  unfold compute_user_metrics, is_Ok.
  destruct (py_int (py_or (get user_record "trades" _) _)) as [t|e]; simpl.
  2:{ split; [intros [? ?]; discriminate | intros (? & ? & ? & _); discriminate]. }
  destruct (py_int (py_or (get user_record "wins" _) _)) as [n|e]; simpl.
  2:{ split; [intros [? ?]; discriminate | intros (? & ? & _ & ? & _); discriminate]. }
  destruct (Z.leb_spec t 0) as [Ht|Ht].
  - split; [|eauto]. intros _. exists t, n. auto.
  - destruct (int_truediv n t) as [q|e] eqn:E; simpl.
    + split; [|eauto]. intros _. exists t, n.
      split; [reflexivity|]. split; [reflexivity|]. right. now exists q.
    + split; [intros [? ?]; discriminate|].
      intros (t' & n' & [= <-] & [= <-] & [?|[? ?]]); [lia | congruence].
Qed.

Lemma int_truediv_returns (a b : Z) :
  b <> 0 -> Z.abs a < 2 ^ 1023 -> is_Ok (int_truediv a b).
Proof.
  intros Hb Ha. unfold int_truediv, is_Ok.
  destruct (Z.abs b) as [|d|d] eqn:Eb; [lia| |lia].
  destruct (Z.abs a) as [|n|n] eqn:Ea; [eauto| |eauto].
  rewrite SF_of_ratio_finite by exact Ha. eauto.
Qed.

Lemma int_or_missing_int (u : record) (k : string) (n : Z) :
  int_or_missing (u !! k) n ->
  py_int (py_or (get u k (VInt 0)) (VInt 0)) = Ok n.
Proof.
  unfold get, py_or. intros [[-> ->] | [[-> ->] | ->]]; simpl; try reflexivity.
  destruct (Z.eqb_spec n 0) as [->|]; reflexivity.
Qed.

(** X2.  [compute_user_metrics] returns on every record whose [trades] and
    [wins] are ints, missing or null, with [|wins| < 2 ^ 1023], whatever its
    balances hold, and returns those counters.  The balance it returns is
    the stored one converted to float and rounded to two decimals, and it is
    5000.0 when the record has no balance or the conversion fails: 1234.567
    is returned as 1234.57, 2.675 (the float below it) as 2.67, the tie
    0.125 as 0.12, and a balance that is a list as 5000.0. *)
Theorem compute_user_metrics_typed :
  (forall (u : record) (t n : Z),
      int_or_missing (u !! "trades") t ->
      int_or_missing (u !! "wins") n ->
      Z.abs n < 2 ^ 1023 ->
      exists m : metrics,
        compute_user_metrics u = Ok m /\
        m_trades_this_period m = t /\ m_wins m = n /\
        (forall b : float,
            py_float (get u "balance" (VFloat START_BALANCE)) = Ok b ->
            m_balance m = round2 b) /\
        (forall e : exn,
            py_float (get u "balance" (VFloat START_BALANCE)) = Raise e ->
            m_balance m = 5000%float) /\
        (u !! "balance" = None -> m_balance m = 5000%float)) /\
  (exists m : metrics,
      compute_user_metrics {["balance" := VFloat 1234.567]} = Ok m /\
      m_balance m = 1234.57%float) /\
  (exists m : metrics,
      compute_user_metrics {["balance" := VFloat 2.675]} = Ok m /\
      m_balance m = 2.67%float) /\
  (exists m : metrics,
      compute_user_metrics {["balance" := VFloat 0.125]} = Ok m /\
      m_balance m = 0.12%float) /\
  (exists m : metrics,
      compute_user_metrics {["balance" := VList [VFloat 7]]} = Ok m /\
      m_balance m = 5000%float).
Proof.
  split; [|split; [|split; [|split]]].
  - intros u t n Ht Hn Hb. unfold compute_user_metrics.
    rewrite (int_or_missing_int _ _ _ Ht), (int_or_missing_int _ _ _ Hn).
    simpl.
    assert (round2 START_BALANCE = 5000%float) as H5
        by (vm_compute; reflexivity).
    assert (exists q : float,
               (if t <=? 0 then Ok 0%float
                else q ← int_truediv n t; Ok (q * 100)%float) = Ok q)
      as [q ->].
    { destruct (Z.leb_spec t 0) as [H|H]; [eauto|].
      destruct (int_truediv_returns n t ltac:(lia) Hb) as [q ->].
      simpl. eauto. }
    simpl. eexists. split; [reflexivity|]. simpl.
    split; [reflexivity|]. split; [reflexivity|].
    unfold float_or_start. split; [|split].
    + now intros b ->.
    + intros e ->. exact H5.
    + intros Hnone. unfold get. rewrite Hnone. exact H5.
  - eexists. split; vm_compute; reflexivity.
  - eexists. split; vm_compute; reflexivity.
  - eexists. split; vm_compute; reflexivity.
  - eexists. split; vm_compute; reflexivity.
Qed.

(** X3.  The win rate is 0.0 whenever the trades are zero or negative. *)
Theorem win_rate_zero (u : record) (m : metrics) :
  compute_user_metrics u = Ok m ->
  m_trades_this_period m <= 0 -> m_win_rate m = 0%float.
Proof.
  unfold compute_user_metrics.
  destruct (py_int (py_or (get u "trades" _) _)) as [t|]; [|discriminate].
  destruct (py_int (py_or (get u "wins" _) _)) as [n|]; [|discriminate].
  simpl. destruct (Z.leb_spec t 0) as [H|H]; simpl.
  - intros [= <-] _. simpl. apply round2_zero.
  - destruct (int_truediv n t); simpl; [|discriminate].
    intros [= <-]. simpl. lia.
Qed.

(** C6: records on which [compute_user_metrics] raises.  A counter that is
    a list, a NaN, or a text that [int()] rejects is passed to [int()]
    outside any [try]. *)
Theorem compute_user_metrics_raises :
  compute_user_metrics {["trades" := VList [VInt 1]]} = Raise TypeError /\
  compute_user_metrics {["wins" := VFloat nan]} = Raise ValueError /\
  (forall s : string,
      s <> EmptyString -> int_of_str s = None ->
      compute_user_metrics {["trades" := VStr s]} = Raise ValueError).
Proof.
  split; [|split].
  - vm_compute. reflexivity.
  - vm_compute. reflexivity.
  - intros s Hs Hi. unfold compute_user_metrics, get.
    rewrite lookup_singleton_eq. simpl. unfold py_or. simpl.
    destruct s; [congruence|]. simpl. now rewrite Hi.
Qed.


(** ** Running the handlers *)

Lemma run_bind {A B : Type} (m : M A) (k : A -> M B) (w : world) :
  (m ≫= k) w =
  match m w with
  | (Ok a, w') => k a w'
  | (Raise e, w') => (Raise e, w')
  end.
Proof. reflexivity. Qed.

Lemma run_ret {A : Type} (a : A) (w : world) : (mret a : M A) w = (Ok a, w).
Proof. reflexivity. Qed.

Lemma set_disk_same (w : world) (db : document) :
  disk w = Some db -> set_disk w (Some db) = w.
Proof. destruct w; simpl; intros ->; reflexivity. Qed.

(** [_read_db] returns the persisted document and leaves it on disk,
    creating the file when it was missing. *)
Lemma run_read_db (w : world) :
  _read_db w = (Ok (persisted w), set_disk w (Some (persisted w))).
Proof.
  unfold _read_db, persisted. destruct (disk w) as [db|] eqn:E; simpl.
  - now rewrite set_disk_same.
  - reflexivity.
Qed.

Lemma persisted_set_disk (w : world) (db : document) :
  persisted (set_disk w (Some db)) = db.
Proof. reflexivity. Qed.

(** The clock readings leave the disk alone. *)
Lemma run_now_iso (w : world) :
  exists s w', _now_iso w = (Ok s, w') /\ disk w' = disk w /\
               clock w' = clock w /\ ticks w' = S (ticks w).
Proof. eexists _, _. split; [reflexivity|]. simpl. auto. Qed.

Lemma run_get_month_key (w : world) :
  exists s w', _get_month_key w = (Ok s, w') /\ disk w' = disk w /\
               clock w' = clock w /\ ticks w' = S (ticks w).
Proof. eexists _, _. split; [reflexivity|]. simpl. auto. Qed.

Lemma run_prev_month_key (w : world) :
  _prev_month_key w =
  (Ok (prev_month_at w),
   {| disk := disk w; clock := clock w; ticks := S (ticks w) |}).
Proof. reflexivity. Qed.

(** *** The rollover *)

(** The rollover returns, leaves the disk and the users alone, and keeps
    every entry of the winners mapping; it adds none when there is no
    user. *)
Lemma run_rollover (db : document) (w : world) :
  exists db' w',
    rollover db w = (Ok db', w') /\
    disk w' = disk w /\
    users db' = users db /\
    (forall k e, monthly_winners db !! k = Some e ->
                 monthly_winners db' !! k = Some e) /\
    (users db = [] -> monthly_winners db' = monthly_winners db).
Proof.
  unfold rollover. rewrite run_bind.
  destruct (run_get_month_key w) as (cur & w1 & -> & Hd1 & _).
  destruct (decide (last_month_closed db = Some cur)).
  { exists db, w1. rewrite run_ret. auto. }
  rewrite run_bind, run_prev_month_key.
  set (w2 := {| disk := disk w1; clock := clock w1; ticks := S (ticks w1) |}).
  set (prev := prev_month_at w1).
  rewrite run_bind.
  destruct (monthly_winners db !! prev) as [e0|] eqn:E.
  { rewrite !run_ret. eexists _, _. split; [reflexivity|]. simpl. auto. }
  destruct (compute_podium_snapshot (users db) 3) as [|p podium] eqn:Ep.
  { rewrite !run_ret. eexists _, _. split; [reflexivity|]. simpl. auto. }
  rewrite run_bind.
  destruct (run_now_iso w2) as (ts & w3 & -> & Hd3 & _).
  rewrite !run_ret. eexists _, _. split; [reflexivity|]. simpl.
  repeat split; auto.
  - rewrite Hd3. exact Hd1.
  - intros k e Hk. rewrite lookup_insert_ne; [exact Hk|]. congruence.
  - intros Hnil. rewrite Hnil, compute_podium_snapshot_nil in Ep. discriminate.
Qed.


(** *** The users mapping and the records *)

Lemma users_get_set_eq (uid : string) (u : record) (us : users_map) :
  users_get uid (users_set uid u us) = Some u.
Proof.
  induction us as [|[k v] us IH]; simpl.
  - now rewrite decide_True.
  - destruct (decide (k = uid)); simpl.
    + now rewrite decide_True.
    + now rewrite decide_False.
Qed.

Lemma users_get_set_ne (uid uid' : string) (u : record) (us : users_map) :
  uid <> uid' -> users_get uid' (users_set uid u us) = users_get uid' us.
Proof.
  intros Hne. induction us as [|[k v] us IH]; simpl.
  - now rewrite decide_False.
  - destruct (decide (k = uid)) as [->|]; simpl.
    + now rewrite !decide_False.
    + destruct (decide (k = uid')); auto.
Qed.

Lemma users_get_elem_of (uid : string) (u : record) (us : users_map) :
  users_get uid us = Some u -> (uid, u) ∈ us.
Proof.
  induction us as [|[k v] us IH]; simpl; [discriminate|].
  destruct (decide (k = uid)) as [->|].
  - intros [= ->]. left.
  - intros H. right. auto.
Qed.

(** Writing a record that satisfies [P] keeps [P] on all records. *)
Lemma users_set_Forall (P : string * record -> Prop) (uid : string)
  (u : record) (us : users_map) :
  (forall k, P (k, u)) -> Forall P us -> Forall P (users_set uid u us).
Proof.
  intros Hu. induction 1 as [|[k v] us Hk Hus IH]; simpl.
  - repeat constructor. apply Hu.
  - destruct (decide (k = uid)); constructor; auto.
Qed.

Lemma setdefault_lookup (k k' : string) (d : value) (u : record) :
  setdefault k d u !! k' =
  match u !! k' with
  | Some v => Some v
  | None => if decide (k' = k) then Some d else None
  end.
Proof.
  unfold setdefault. destruct (u !! k) as [v|] eqn:E.
  - destruct (u !! k') eqn:E'; [reflexivity|].
    destruct (decide (k' = k)) as [->|]; [congruence | reflexivity].
  - destruct (decide (k' = k)) as [->|Hne].
    + now rewrite lookup_insert_eq, E.
    + rewrite lookup_insert_ne by congruence. now destruct (u !! k').
Qed.

(** [ensure_fields] keeps every stored value and fills the four fields
    with their defaults. *)
Lemma ensure_fields_lookup (u : record) (k : string) :
  ensure_fields u !! k =
  match u !! k with
  | Some v => Some v
  | None => field_default k
  end.
Proof.
  unfold ensure_fields, field_default. rewrite !setdefault_lookup.
  destruct (u !! k); [reflexivity|].
  repeat (case_decide; subst; try reflexivity; try discriminate).
Qed.

Lemma ensure_fields_get (u : record) (k : string) (d : value) :
  field_default k = Some d -> ensure_fields u !! k = Some (get u k d).
Proof.
  intros H. rewrite ensure_fields_lookup. unfold get.
  destruct (u !! k); simpl; auto.
Qed.


(** *** The writers, step by step *)

(** The reading [_now_iso] takes in [w]. *)
Lemma run_now_iso_eq (w : world) :
  _now_iso w =
  (Ok (isoformat (clock w (ticks w)) +:+ "Z"),
   {| disk := disk w; clock := clock w; ticks := S (ticks w) |}).
Proof. reflexivity. Qed.

(** [record_trade]: a rejected result leaves what was read; a failed
    conversion too; otherwise the record is written back with its new
    fields and the time of the write. *)
Lemma run_record_trade (uid : string) (tr : TradeRecord) (w : world) :
  let db := persisted w in
  let u := ensure_fields (default new_user (users_get uid (users db))) in
  let res := lower (tr_result tr) in
  record_trade uid tr w =
  if negb (String.eqb res "win" || String.eqb res "lose") then
    (Raise invalid_result, set_disk w (Some db))
  else
    match apply_trade res (tr_amount tr) u with
    | Raise e => (Raise e, set_disk w (Some db))
    | Ok u1 =>
        let u' :=
          <["last_update" := VStr (isoformat (clock w (ticks w)) +:+ "Z")]> u1 in
        (m ← compute_user_metrics u'; Ok (merged_view uid u' m),
         {| disk := Some (set_users db (users_set uid u' (users db)));
            clock := clock w; ticks := S (ticks w) |})
    end.
Proof.
  intros db u res. unfold record_trade. rewrite run_bind, run_read_db.
  fold db u res. destruct (negb _); [reflexivity|].
  rewrite run_bind. unfold lift at 1.
  destruct (apply_trade res (tr_amount tr) u) as [u1|e]; [|reflexivity].
  rewrite run_bind, run_now_iso_eq. simpl.
  destruct (compute_user_metrics _); reflexivity.
Qed.


(** [post_user]: after the rollover the record is updated, completed,
    stamped and written back. *)
Lemma run_post_user (uid : string) (upd : UserUpdate) (w : world) :
  exists (db' : document) (w2 : world),
    users db' = users (persisted w) /\
    (forall k e, monthly_winners (persisted w) !! k = Some e ->
                 monthly_winners db' !! k = Some e) /\
    (users (persisted w) = [] ->
     monthly_winners db' = monthly_winners (persisted w)) /\
    let u' :=
      <["last_update" := VStr (isoformat (clock w2 (ticks w2)) +:+ "Z")]>
        (ensure_fields
           (apply_update upd
              (default new_user (users_get uid (users (persisted w)))))) in
    post_user uid upd w =
    (m ← compute_user_metrics u'; Ok (merged_view uid u' m),
     {| disk := Some (set_users db' (users_set uid u' (users (persisted w))));
        clock := clock w2; ticks := S (ticks w2) |}).
Proof.
  unfold post_user. rewrite run_bind, run_read_db, run_bind.
  destruct (run_rollover (persisted w) (set_disk w (Some (persisted w))))
    as (db' & w2 & -> & _ & Hu & Hmw & Hnil).
  exists db', w2. repeat split; auto.
  rewrite run_bind, run_now_iso_eq, Hu. simpl.
  destruct (compute_user_metrics _); reflexivity.
Qed.

(** [post_close_month]: nothing is written for a month that has an entry;
    otherwise the podium of the users is stored, whatever its length. *)
Lemma run_post_close_month (w : world) :
  let db := persisted w in
  let prev_month := prev_month_at w in
  post_close_month w =
  match monthly_winners db !! prev_month with
  | Some _ =>
      (Ok (already_closed prev_month),
       {| disk := Some db; clock := clock w; ticks := S (ticks w) |})
  | None =>
      let podium := compute_podium_snapshot (users db) 3 in
      let closed_at := isoformat (clock w (S (ticks w))) +:+ "Z" in
      let current_month := strftime_Ym (clock w (S (S (ticks w)))) in
      (Ok (closed prev_month podium),
       {| disk :=
            Some {| users := users db;
                    monthly_winners :=
                      <[prev_month := {| we_podium := podium;
                                         we_closed_at := closed_at |}]>
                        (monthly_winners db);
                    last_month_closed := Some current_month |};
          clock := clock w; ticks := S (S (S (ticks w))) |})
  end.
Proof.
  intros db prev_month. unfold post_close_month.
  rewrite run_bind, run_read_db, run_bind, run_prev_month_key.
  fold db. change (prev_month_at (set_disk w (Some db))) with prev_month.
  destruct (monthly_winners db !! prev_month); reflexivity.
Qed.

(** *** The readers *)

Lemma run_get_leaderboard (limit : Z) (w : world) :
  disk (snd (get_leaderboard limit w)) = Some (persisted w).
Proof.
  unfold get_leaderboard. rewrite run_bind, run_read_db, run_bind.
  unfold lift. destruct (leaderboard_arr _); reflexivity.
Qed.

Lemma run_get_user (uid : string) (w : world) :
  snd (get_user uid w) = set_disk w (Some (persisted w)).
Proof.
  unfold get_user. rewrite run_bind, run_read_db.
  destruct (users_get _ _) as [u|]; [|reflexivity].
  destruct (decide (u = ∅)); [reflexivity|].
  rewrite run_bind. unfold lift. destruct (compute_user_metrics u); reflexivity.
Qed.

Lemma run_get_winners (month : string) (w : world) :
  snd (get_winners month w) = set_disk w (Some (persisted w)).
Proof.
  unfold get_winners. rewrite run_bind, run_read_db.
  destruct (monthly_winners _ !! month); reflexivity.
Qed.

Lemma run_get_latest_winners (w : world) :
  snd (get_latest_winners w) = set_disk w (Some (persisted w)).
Proof.
  unfold get_latest_winners. rewrite run_bind, run_read_db.
  destruct (last_sorted _) as [[k e]|]; reflexivity.
Qed.

(** A request that reads leaves the document it read. *)
Lemma serve_read (r : request) (w : world) :
  is_read r = true -> disk (serve r w) = Some (persisted w).
Proof.
  destruct r; simpl; try discriminate; intros _.
  - apply run_get_leaderboard.
  - now rewrite run_get_user.
  - now rewrite run_get_winners.
  - now rewrite run_get_latest_winners.
Qed.

Lemma persisted_of_disk (w : world) (db : document) :
  disk w = Some db -> persisted w = db.
Proof. unfold persisted. now intros ->. Qed.


(** ** The read operations *)

(** C10.  A read operation (leaderboard, user, winners of a month, latest
    winners) leaves the persisted document as it was: users, monthly
    winners and [last_month_closed] together; a user that had no record has
    none afterwards. *)
Theorem reads_leave_document (r : request) (w : world) :
  is_read r = true ->
  persisted (serve r w) = persisted w /\
  (forall db, disk w = Some db -> disk (serve r w) = Some db) /\
  (forall uid,
      users_get uid (users (persisted w)) = None ->
      users_get uid (users (persisted (serve r w))) = None).
Proof.
  intros Hr. pose proof (serve_read r w Hr) as Hd.
  assert (persisted (serve r w) = persisted w) as Hp
      by (now apply persisted_of_disk).
  split; [exact Hp|]. split.
  - intros db Hdb. rewrite Hd. f_equal. now apply persisted_of_disk.
  - intros uid. now rewrite Hp.
Qed.

(** ** The monthly winners *)

Lemma record_trade_persisted (uid : string) (tr : TradeRecord) (w : world) :
  persisted (snd (record_trade uid tr w)) = persisted w \/
  exists u', persisted (snd (record_trade uid tr w)) =
             set_users (persisted w) (users_set uid u' (users (persisted w))).
Proof.
  pose proof (run_record_trade uid tr w) as H. simpl in H. rewrite H.
  destruct (negb _); [now left|].
  destruct (apply_trade _ _ _) as [u1|e]; [|now left].
  right. eexists. reflexivity.
Qed.

(** No request removes or replaces an entry of the winners mapping. *)
Lemma serve_keeps_winners (r : request) (w : world) (k : string)
  (e : winners_entry) :
  monthly_winners (persisted w) !! k = Some e ->
  monthly_winners (persisted (serve r w)) !! k = Some e.
Proof.
  intros Hk. destruct r as [limit|uid|uid upd|uid tr| |month|].
  - now rewrite (persisted_of_disk _ _ (serve_read (GET_leaderboard limit) w eq_refl)).
  - now rewrite (persisted_of_disk _ _ (serve_read (GET_user uid) w eq_refl)).
  - simpl. destruct (run_post_user uid upd w) as (db' & w2 & _ & Hmw & _ & ->).
    simpl. now apply Hmw.
  - simpl. destruct (record_trade_persisted uid tr w) as [->|[u' ->]]; auto.
  - simpl. pose proof (run_post_close_month w) as H. simpl in H. rewrite H.
    destruct (monthly_winners (persisted w) !! prev_month_at w) eqn:E; simpl.
    + exact Hk.
    + unfold persisted at 1. simpl.
      rewrite lookup_insert_ne; [exact Hk | congruence].
  - now rewrite (persisted_of_disk _ _ (serve_read (GET_winners month) w eq_refl)).
  - now rewrite (persisted_of_disk _ _ (serve_read GET_latest_winners w eq_refl)).
Qed.

(** C1.  When the key of the previous month is in the winners mapping, a
    manual [close_month] answers "already_closed" for that month and leaves
    the document, so the stored podium and [closed_at], as they were; and no
    operation removes or overwrites an entry of the winners mapping. *)
Theorem month_closing_idempotent :
  (forall (w : world) (db : document) (e : winners_entry),
      disk w = Some db ->
      monthly_winners db !! prev_month_at w = Some e ->
      fst (post_close_month w) = Ok (already_closed (prev_month_at w)) /\
      disk (snd (post_close_month w)) = Some db /\
      monthly_winners (persisted (snd (post_close_month w)))
        !! prev_month_at w = Some e) /\
  (forall (r : request) (w : world) (k : string) (e : winners_entry),
      monthly_winners (persisted w) !! k = Some e ->
      monthly_winners (persisted (serve r w)) !! k = Some e).
Proof.
  split.
  - intros w db e Hd Hk.
    pose proof (run_post_close_month w) as H. simpl in H. rewrite H.
    rewrite (persisted_of_disk _ _ Hd), Hk. simpl. auto.
  - apply serve_keeps_winners.
Qed.


(** ** The user update *)

Lemma apply_update_lookup (upd : UserUpdate) (u : record) (k : string) :
  apply_update upd u !! k =
  match update_of upd k with
  | Some v => Some v
  | None => u !! k
  end.
Proof.
  unfold apply_update, update_of.
  destruct upd as [nick bal tr wi psb]; simpl.
  destruct nick, bal, tr, wi, psb; simpl;
    repeat (case_decide; subst; simpl; simplify_map_eq; try reflexivity).
Qed.

(** The record [post_user] writes, field by field: the time of the write,
    the value of the update, or what [kept] says. *)
Lemma updated_record_lookup (upd : UserUpdate) (now : string) (u : record)
  (k : string) :
  k <> "last_update" ->
  <["last_update" := VStr now]> (ensure_fields (apply_update upd u)) !! k =
  match update_of upd k with
  | Some v => Some v
  | None => kept k u
  end.
Proof.
  intros Hk. rewrite lookup_insert_ne by congruence.
  rewrite ensure_fields_lookup, apply_update_lookup. unfold kept.
  destruct (update_of upd k); [reflexivity|]. reflexivity.
Qed.

(** C4.  [post_user] on an existing record leaves each of [nickname],
    [balance], [trades], [wins] and [period_start_balance] that the update
    does not provide with its stored value (a record that lacked the field
    gets the default it was read with); posting only a nickname leaves the
    four other fields as they were. *)
Theorem post_user_partial_update (uid : string) (upd : UserUpdate)
  (w : world) (u : record) :
  users_get uid (users (persisted w)) = Some u ->
  exists u' : record,
    users_get uid (users (persisted (snd (post_user uid upd w)))) = Some u' /\
    (upd_nickname upd = None -> u' !! "nickname" = kept "nickname" u) /\
    (upd_balance upd = None -> u' !! "balance" = kept "balance" u) /\
    (upd_trades upd = None -> u' !! "trades" = kept "trades" u) /\
    (upd_wins upd = None -> u' !! "wins" = kept "wins" u) /\
    (upd_period_start_balance upd = None ->
     u' !! "period_start_balance" = kept "period_start_balance" u) /\
    (forall (k : string) (v : value),
        k <> "last_update" -> update_of upd k = None ->
        u !! k = Some v -> u' !! k = Some v).
Proof.
  intros Hu.
  destruct (run_post_user uid upd w) as (db' & w2 & _ & _ & _ & H).
  simpl in H. rewrite H, Hu. clear H. simpl.
  eexists. split; [apply users_get_set_eq|].
  repeat split.
  - intros E. rewrite updated_record_lookup by discriminate.
    unfold update_of. simpl. now rewrite E.
  - intros E. rewrite updated_record_lookup by discriminate.
    unfold update_of. simpl. now rewrite E.
  - intros E. rewrite updated_record_lookup by discriminate.
    unfold update_of. simpl. now rewrite E.
  - intros E. rewrite updated_record_lookup by discriminate.
    unfold update_of. simpl. now rewrite E.
  - intros E. rewrite updated_record_lookup by discriminate.
    unfold update_of. simpl. now rewrite E.
  - intros k v Hk E Hv. rewrite updated_record_lookup by exact Hk.
    rewrite E. unfold kept. now rewrite Hv.
Qed.


(** ** The trade record *)

Lemma py_int_raises (v : value) (e : exn) :
  py_int v = Raise e -> runtime_exn e.
Proof.
  destruct v; simpl; try (intros [= <-]; exact I); try discriminate.
  - unfold Z_of_float. destruct (Prim2SF x); try discriminate;
      intros [= <-]; exact I.
  - destruct (int_of_str s); [discriminate | intros [= <-]; exact I].
Qed.

Lemma py_float_raises (v : value) (e : exn) :
  py_float v = Raise e -> runtime_exn e.
Proof.
  destruct v; simpl; try (intros [= <-]; exact I); try discriminate.
  - destruct (float_of_Z n); [discriminate | intros [= <-]; exact I].
  - destruct (float_of_str s); [discriminate | intros [= <-]; exact I].
Qed.

Lemma int_truediv_raises (a b : Z) (e : exn) :
  int_truediv a b = Raise e -> runtime_exn e.
Proof.
  unfold int_truediv.
  destruct (Z.abs a), (Z.abs b); try discriminate;
    try (intros [= <-]; exact I).
  destruct (is_infinite_SF _); [intros [= <-]; exact I | discriminate].
Qed.

Lemma compute_user_metrics_raises_runtime (u : record) (e : exn) :
  compute_user_metrics u = Raise e -> runtime_exn e.
Proof.
  unfold compute_user_metrics.
  destruct (py_int (py_or (get u "trades" _) _)) as [t|e1] eqn:E1; simpl.
  2:{ intros [= <-]. eapply py_int_raises, E1. }
  destruct (py_int (py_or (get u "wins" _) _)) as [n|e2] eqn:E2; simpl.
  2:{ intros [= <-]. eapply py_int_raises, E2. }
  destruct (t <=? 0); simpl; [discriminate|].
  destruct (int_truediv n t) as [q|e3] eqn:E3; simpl; [discriminate|].
  intros [= <-]. eapply int_truediv_raises, E3.
Qed.

Lemma apply_trade_raises (res : string) (amount : option float) (u : record)
  (e : exn) :
  apply_trade res amount u = Raise e -> runtime_exn e.
Proof.
  unfold apply_trade.
  destruct (py_int (get u "trades" _)) as [t|e1] eqn:E1; simpl.
  2:{ intros [= <-]. eapply py_int_raises, E1. }
  destruct (String.eqb res "win").
  - destruct (py_int (get _ "wins" _)) as [n|e2] eqn:E2; simpl.
    2:{ intros [= <-]. eapply py_int_raises, E2. }
    destruct amount as [amt|]; [|discriminate].
    destruct (py_float _) as [b|e3] eqn:E3; simpl; [discriminate|].
    intros [= <-]. eapply py_float_raises, E3.
  - simpl. destruct amount as [amt|]; [|discriminate].
    destruct (py_float _) as [b|e3] eqn:E3; simpl; [discriminate|].
    intros [= <-]. eapply py_float_raises, E3.
Qed.

(** The trade applied to a record whose counters are ints and whose balance
    is a float. *)
Lemma apply_trade_typed (res : string) (amount : option float) (u : record)
  (t n : Z) (b : float) :
  u !! "trades" = Some (VInt t) ->
  u !! "wins" = Some (VInt n) ->
  u !! "balance" = Some (VFloat b) ->
  exists u1 : record,
    apply_trade res amount u = Ok u1 /\
    u1 !! "trades" = Some (VInt (t + 1)) /\
    u1 !! "wins" = Some (VInt (if String.eqb res "win" then n + 1 else n)) /\
    u1 !! "balance" =
      Some (VFloat
              match amount with
              | Some amt =>
                  round2 (if String.eqb res "win"
                          then (b + amt)%float else (b - amt)%float)
              | None => b
              end) /\
    (forall k : string,
        k <> "trades" -> k <> "wins" -> k <> "balance" -> u1 !! k = u !! k).
Proof.
  intros Ht Hn Hb. unfold apply_trade, get. rewrite Ht. simpl.
  destruct (String.eqb res "win"); simpl.
  - rewrite lookup_insert_ne by discriminate. rewrite Hn. simpl.
    destruct amount as [amt|]; simpl.
    + rewrite !lookup_insert_ne by discriminate. rewrite Hb. simpl.
      eexists. split; [reflexivity|].
      repeat split; intros; simplify_map_eq; reflexivity.
    + eexists. split; [reflexivity|].
      repeat split; intros; simplify_map_eq; reflexivity.
  - destruct amount as [amt|]; simpl.
    + rewrite !lookup_insert_ne by discriminate. rewrite Hb. simpl.
      eexists. split; [reflexivity|].
      repeat split; intros; simplify_map_eq; reflexivity.
    + eexists. split; [reflexivity|].
      repeat split; intros; simplify_map_eq; reflexivity.
Qed.

Lemma valid_result_iff (res : string) :
  negb (String.eqb res "win" || String.eqb res "lose") = true <->
  res <> "win" /\ res <> "lose".
Proof.
  rewrite negb_true_iff, orb_false_iff, !String.eqb_neq. reflexivity.
Qed.


(** ** The counters of the stored records *)

Lemma new_user_counters (ok : Z -> Prop) : ok 0 -> typed_fields ok new_user.
Proof. intros H. exists 0, 0, START_BALANCE. repeat split; auto. Qed.

Lemma stored_counters (ok : Z -> Prop) (db : document) (uid : string) :
  ok 0 -> typed_records ok db ->
  typed_fields ok (default new_user (users_get uid (users db))).
Proof.
  intros H0 Hc. destruct (users_get uid (users db)) as [u|] eqn:E; simpl.
  - apply users_get_elem_of in E. unfold typed_records in Hc.
    rewrite Forall_forall in Hc. exact (Hc _ E).
  - now apply new_user_counters.
Qed.

Lemma counters_users_set (ok : Z -> Prop) (db db' : document) (uid : string)
  (u : record) :
  users db' = users db ->
  typed_fields ok u -> typed_records ok db ->
  typed_records ok (set_users db' (users_set uid u (users db))).
Proof.
  intros _ Hu Hc. unfold typed_records. simpl.
  apply users_set_Forall; [intros k; exact Hu | exact Hc].
Qed.

Lemma updated_record_counters (ok : Z -> Prop) (upd : UserUpdate)
  (now : string) (u : record) :
  opt_ok ok (upd_trades upd) -> opt_ok ok (upd_wins upd) ->
  typed_fields ok u ->
  typed_fields ok
    (<["last_update" := VStr now]> (ensure_fields (apply_update upd u))).
Proof.
  intros Ht Hn (t & n & b & Eu & En & Eb & Ot & On). unfold typed_fields.
  rewrite !updated_record_lookup by discriminate.
  unfold update_of, kept. simpl. rewrite Eu, En, Eb.
  destruct (upd_trades upd) as [t'|], (upd_wins upd) as [n'|],
    (upd_balance upd) as [b'|]; simpl in *;
    eexists _, _, _; repeat split; eauto.
Qed.

Lemma apply_trade_counters (ok : Z -> Prop) (res : string)
  (amount : option float) (u u1 : record) :
  (forall t, ok t -> ok (t + 1)) ->
  typed_fields ok u ->
  apply_trade res amount u = Ok u1 ->
  typed_fields ok u1.
Proof.
  intros Hs (t & n & b & Et & En & Eb & Ot & On).
  destruct (apply_trade_typed res amount u t n b Et En Eb)
    as (u' & -> & Ht' & Hn' & Hb' & _).
  intros [= <-]. eexists _, _, _.
  split; [exact Ht'|]. split; [exact Hn'|]. split; [exact Hb'|].
  split; [auto|]. destruct (String.eqb res "win"); auto.
Qed.

Lemma ensure_fields_counters (ok : Z -> Prop) (u : record) :
  typed_fields ok u -> typed_fields ok (ensure_fields u).
Proof.
  intros (t & n & b & Et & En & Eb & Ot & On). exists t, n, b.
  rewrite !ensure_fields_lookup, Et, En, Eb. auto.
Qed.

Lemma insert_last_update_counters (ok : Z -> Prop) (v : value) (u : record) :
  typed_fields ok u -> typed_fields ok (<["last_update" := v]> u).
Proof.
  intros (t & n & b & Et & En & Eb & Ot & On). exists t, n, b.
  rewrite !lookup_insert_ne by discriminate. auto.
Qed.

(** Every request keeps the counters ints, and keeps them within [ok] when
    the counters it supplies are. *)
Lemma serve_counters (ok : Z -> Prop) (r : request) (w : world) :
  ok 0 -> (forall t, ok t -> ok (t + 1)) ->
  request_counters ok r ->
  typed_records ok (persisted w) -> typed_records ok (persisted (serve r w)).
Proof.
  intros H0 Hs Hr Hc. destruct r as [limit|uid|uid upd|uid tr| |month|].
  - now rewrite (persisted_of_disk _ _ (serve_read (GET_leaderboard limit) w eq_refl)).
  - now rewrite (persisted_of_disk _ _ (serve_read (GET_user uid) w eq_refl)).
  - simpl. destruct (run_post_user uid upd w) as (db' & w2 & Hu & _ & _ & ->).
    destruct Hr as [Ht Hn]. simpl. unfold persisted at 1. simpl.
    apply counters_users_set; auto.
    apply updated_record_counters; auto. now apply stored_counters.
  - simpl. pose proof (run_record_trade uid tr w) as H. cbv zeta in H.
    rewrite H. destruct (negb _); [exact Hc|].
    destruct (apply_trade _ _ _) as [u1|e] eqn:E; [|exact Hc].
    simpl. unfold persisted at 1. simpl.
    apply counters_users_set; auto.
    apply insert_last_update_counters.
    eapply apply_trade_counters; [exact Hs| |exact E].
    apply ensure_fields_counters. now apply stored_counters.
  - simpl. pose proof (run_post_close_month w) as H. cbv zeta in H.
    rewrite H. destruct (monthly_winners _ !! _); exact Hc.
  - now rewrite (persisted_of_disk _ _ (serve_read (GET_winners month) w eq_refl)).
  - now rewrite (persisted_of_disk _ _ (serve_read GET_latest_winners w eq_refl)).
Qed.

Lemma initial_counters (ok : Z -> Prop) (w : world) :
  initial w -> typed_records ok (persisted w).
Proof.
  intros [H|H]; unfold persisted, typed_records; rewrite H; constructor.
Qed.

(** The documents reached through requests whose counters are within [ok]
    hold typed records with counters within [ok]. *)
Lemma reachable_fields (ok : Z -> Prop) (w : world) :
  ok 0 -> (forall t, ok t -> ok (t + 1)) ->
  reachable (request_counters ok) w -> typed_records ok (persisted w).
Proof.
  intros H0 Hs. induction 1 as [w Hi|r w Hw IH Hr].
  - now apply initial_counters.
  - now apply serve_counters.
Qed.

Lemma reachable_any_int (w : world) :
  reachable (fun _ => True) w -> reachable (request_counters any_int) w.
Proof.
  induction 1 as [w Hi|r w Hw IH Hr].
  - now apply reachable_initial.
  - apply reachable_serve; [exact IH|].
    destruct r; simpl; auto. split.
    + destruct (upd_trades upd); exact I.
    + destruct (upd_wins upd); exact I.
Qed.

(** C9 (as amended).  In every document reachable from the empty one, the
    [trades] and [wins] of every record are ints (and its balance a
    float); the counters are non-negative in the documents reached without
    a user update that supplies a negative [trades] or [wins]. *)
Theorem reachable_counters (w : world) :
  (reachable (fun _ => True) w -> typed_records any_int (persisted w)) /\
  (reachable (request_counters nonneg) w -> typed_records nonneg (persisted w)).
Proof.
  split; intros Hw.
  - apply reachable_fields; [exact I | intros; exact I |].
    now apply reachable_any_int.
  - apply reachable_fields; [unfold nonneg; lia | unfold nonneg; lia |].
    exact Hw.
Qed.

(** C3.  [record_trade] raises a client error exactly when the lower-cased
    result is neither "win" nor "lose", and then the persisted document is
    the one that was read.  Otherwise, on a record whose counters are ints
    and whose balance is a float, the written record has [trades + 1],
    [wins + 1] on a win and [wins] on a loss, and, when an amount is
    given, the balance plus the amount on a win and minus the amount on a
    loss, rounded to two decimals; the records of every document reachable
    from the empty one are such records.  From the starting balance, a win
    of 100 then a loss of 50 give balance 5050.0, trades 2, wins 1, win
    rate 50.0. *)
Theorem record_trade_spec :
  (forall (uid : string) (tr : TradeRecord) (w : world),
      let res := lower (tr_result tr) in
      let out := record_trade uid tr w in
      ((exists status detail,
           fst out = Raise (HTTPException status detail)) <->
       res <> "win" /\ res <> "lose") /\
      (res <> "win" /\ res <> "lose" ->
       fst out = Raise invalid_result /\
       persisted (snd out) = persisted w /\
       (forall db, disk w = Some db -> disk (snd out) = Some db))) /\
  (forall (uid : string) (tr : TradeRecord) (w : world) (t n : Z) (b : float),
      let res := lower (tr_result tr) in
      let db := persisted w in
      let u := default new_user (users_get uid (users db)) in
      res = "win" \/ res = "lose" ->
      get u "trades" (VInt 0) = VInt t ->
      get u "wins" (VInt 0) = VInt n ->
      get u "balance" (VFloat START_BALANCE) = VFloat b ->
      exists u' : record,
        persisted (snd (record_trade uid tr w)) =
          set_users db (users_set uid u' (users db)) /\
        u' !! "trades" = Some (VInt (t + 1)) /\
        u' !! "wins" =
          Some (VInt (if String.eqb res "win" then n + 1 else n)) /\
        u' !! "balance" =
          Some (VFloat
                  match tr_amount tr with
                  | Some amt =>
                      round2 (if String.eqb res "win"
                              then (b + amt)%float else (b - amt)%float)
                  | None => b
                  end)) /\
  (forall (uid : string) (w : world),
      reachable (fun _ => True) w ->
      let u := default new_user (users_get uid (users (persisted w))) in
      exists (t n : Z) (b : float),
        get u "trades" (VInt 0) = VInt t /\
        get u "wins" (VInt 0) = VInt n /\
        get u "balance" (VFloat START_BALANCE) = VFloat b) /\
  (exists v1 v2 : user_view,
      fst (record_trade "alice" (trade "win" 100) fresh_world) = Ok v1 /\
      uv_balance v1 = 5100%float /\
      uv_trades_this_period v1 = 1 /\ uv_wins v1 = 1 /\
      fst (record_trade "alice" (trade "lose" 50)
             (snd (record_trade "alice" (trade "win" 100) fresh_world)))
        = Ok v2 /\
      uv_balance v2 = 5050%float /\
      uv_trades_this_period v2 = 2 /\ uv_wins v2 = 1 /\
      uv_win_rate v2 = 50%float).
Proof.
  split; [|split; [|split]].
  - intros uid tr w res out. subst out.
    pose proof (run_record_trade uid tr w) as H. cbv zeta in H. fold res in H.
    pose proof (valid_result_iff res) as Hv.
    destruct (negb _) eqn:Hres.
    + assert (res <> "win" /\ res <> "lose") as Hbad by now apply Hv.
      rewrite H. simpl. split.
      * split; [intros _; exact Hbad|]. intros _. eexists _, _. reflexivity.
      * intros _. split; [reflexivity|]. split; [reflexivity|].
        intros db Hdb. f_equal. now apply persisted_of_disk.
    + assert (~ (res <> "win" /\ res <> "lose")) as Hok.
      { intros Hbad. apply Hv in Hbad. discriminate. }
      split; [|tauto]. split; [|tauto].
      intros (status & detail & Hr). exfalso. rewrite H in Hr.
      destruct (apply_trade _ _ _) as [u1|e] eqn:E; simpl in Hr.
      * destruct (compute_user_metrics _) as [m|e] eqn:Em; simpl in Hr;
          [discriminate|].
        injection Hr as ->.
        exact (compute_user_metrics_raises_runtime _ _ Em).
      * injection Hr as ->. exact (apply_trade_raises _ _ _ _ E).
  - intros uid tr w t n b res db u Hres Ht Hn Hb.
    pose proof (run_record_trade uid tr w) as H. cbv zeta in H.
    fold res db u in H.
    assert (negb (String.eqb res "win" || String.eqb res "lose") = false)
      as Hvalid.
    { destruct Hres as [-> | ->]; reflexivity. }
    rewrite Hvalid in H.
    destruct (apply_trade_typed res (tr_amount tr) (ensure_fields u) t n b)
      as (u1 & E & H1 & H2 & H3 & _).
    { rewrite <- Ht. now apply ensure_fields_get. }
    { rewrite <- Hn. now apply ensure_fields_get. }
    { rewrite <- Hb. now apply ensure_fields_get. }
    rewrite E in H. rewrite H. simpl.
    eexists. split; [reflexivity|].
    rewrite !lookup_insert_ne by discriminate. auto.
  - intros uid w Hw u.
    destruct (stored_counters any_int (persisted w) uid I
                (reachable_fields any_int w I (fun _ _ => I)
                   (reachable_any_int w Hw)))
      as (t & n & b & Ht & Hn & Hb & _).
    exists t, n, b. unfold get. fold u in Ht, Hn, Hb.
    now rewrite Ht, Hn, Hb.
  - eexists _, _. split; [vm_compute; reflexivity|].
    split; [vm_compute; reflexivity|].
    split; [reflexivity|]. split; [reflexivity|].
    split; [vm_compute; reflexivity|].
    split; [vm_compute; reflexivity|].
    split; [reflexivity|]. split; [reflexivity|].
    vm_compute; reflexivity.
Qed.


(** ** The leaderboard *)

Lemma leaderboard_arr_length (us : users_map) (arr : list leaderboard_row) :
  leaderboard_arr us = Ok arr -> length arr = length us.
Proof.
  revert arr. induction us as [|[uid u] us IH]; simpl; intros arr.
  - now intros [= <-].
  - destruct (compute_user_metrics u) as [m|]; simpl; [|discriminate].
    destruct (leaderboard_arr us) as [arr'|]; simpl; [|discriminate].
    intros [= <-]. simpl. f_equal. now apply IH.
Qed.

Lemma clamp_limit_range (limit : Z) : 0 <= clamp_limit limit <= 1000.
Proof. unfold clamp_limit. lia. Qed.

Lemma compute_user_metrics_balance (u : record) (m : metrics) :
  compute_user_metrics u = Ok m -> m_balance m = shown_balance u.
Proof.
  unfold compute_user_metrics.
  destruct (py_int (py_or (get u "trades" _) _)) as [t|]; [|discriminate].
  destruct (py_int (py_or (get u "wins" _) _)) as [n|]; [|discriminate].
  simpl. destruct (if t <=? 0 then _ else _) as [wr|]; [|discriminate].
  simpl. now intros [= <-].
Qed.

(** The loop of [get_leaderboard] returns the rows of the users, in
    order, when the metrics of every record can be computed. *)
Lemma leaderboard_arr_rows (us : users_map) :
  Forall (fun kv => is_Ok (compute_user_metrics (snd kv))) us ->
  exists arr, leaderboard_arr us = Ok arr /\ Forall2 is_row_of us arr.
Proof.
  induction 1 as [|[uid u] us [m Hm] Hus (arr & IH & Hrows)]; simpl.
  - exists []. split; [reflexivity | constructor].
  - simpl in Hm. rewrite Hm, IH. simpl. eexists. split; [reflexivity|].
    constructor; [|exact Hrows]. exists m. auto.
Qed.

Lemma rows_no_nan (us : users_map) (arr : list leaderboard_row) :
  Forall (fun kv => is_nan (shown_balance (snd kv)) = false) us ->
  Forall2 is_row_of us arr -> no_nan_keys lb_balance arr.
Proof.
  intros Hnan Hrows.
  induction Hrows as [|kv row us arr (m & Hm & ->) Hrows IH].
  - constructor.
  - inversion Hnan as [|? ? Hkv Hus]; subst. constructor; [|now apply IH].
    simpl. now rewrite (compute_user_metrics_balance _ _ Hm).
Qed.

(** X30.  For every integer limit and every users mapping on whose records
    [compute_user_metrics] returns and whose shown balances hold no NaN,
    [get_leaderboard] returns the first
    [min(max(0, min(limit, 1000)), number of users)] rows of the rows of the
    users sorted descending by balance, rows of one balance in the order of
    the users.  With limit 1 over users of balances 5200, 4800 and 5000 it
    returns the user of balance 5200 alone. *)
Theorem leaderboard_spec :
  (forall (limit : Z) (w : world),
      let us := users (persisted w) in
      Forall (fun kv => is_Ok (compute_user_metrics (snd kv))) us ->
      Forall (fun kv => is_nan (shown_balance (snd kv)) = false) us ->
      exists (rows rest arr : list leaderboard_row) (timestamp : string),
        fst (get_leaderboard limit w) = Ok (rows, timestamp) /\
        StronglySorted (ge_key lb_balance) rows /\
        Z.of_nat (length rows) <= Z.max 0 (Z.min limit 1000) /\
        Z.of_nat (length rows) =
          Z.min (Z.max 0 (Z.min limit 1000)) (Z.of_nat (length us)) /\
        Forall2 is_row_of us arr /\
        rows ++ rest ≡ₚ arr /\
        StronglySorted (ge_key lb_balance) (rows ++ rest) /\
        (forall v : float,
            with_key lb_balance v (rows ++ rest) = with_key lb_balance v arr)) /\
  (exists (row : leaderboard_row) (timestamp : string),
      fst (get_leaderboard 1 (world_of (document_of three_users)))
        = Ok ([row], timestamp) /\
      lb_user_id row = "ann" /\ lb_balance row = 5200%float).
Proof.
  split.
  - intros limit w us Hok Hnan.
    destruct (leaderboard_arr_rows us Hok) as (arr & Harr & Hrows).
    pose proof (rows_no_nan us arr Hnan Hrows) as Hnn.
    set (sorted := sort_desc lb_balance arr).
    set (k := Z.to_nat (Z.max 0 (Z.min limit 1000))).
    assert (StronglySorted (ge_key lb_balance) sorted) as Hs
        by (now apply sort_desc_sorted).
    assert (Z.of_nat (length (take k sorted)) =
            Z.min (Z.max 0 (Z.min limit 1000)) (Z.of_nat (length us))) as Hlen.
    { rewrite length_take. unfold sorted.
      rewrite sort_desc_length, (leaderboard_arr_length _ _ Harr).
      unfold k. lia. }
    exists (take k sorted), (drop k sorted), arr. eexists.
    split; [|split; [|split; [|split; [|split; [|split; [|split]]]]]].
    + unfold get_leaderboard.
      rewrite run_bind, run_read_db, run_bind. unfold lift.
      fold us. rewrite Harr. reflexivity.
    + rewrite <- (take_drop k sorted) in Hs.
      now apply StronglySorted_app_1_l in Hs.
    + lia.
    + exact Hlen.
    + exact Hrows.
    + rewrite take_drop. apply sort_desc_perm.
    + now rewrite take_drop.
    + intros v. rewrite take_drop. apply sort_desc_stable.
  - eexists _, _. split; [vm_compute; reflexivity|].
    split; [reflexivity | vm_compute; reflexivity].
Qed.

(** C8: the failing inputs.  With the balances 1, NaN and 2 stored in this
    order the leaderboard returns the three rows in this order, the balance
    1 before the balance 2: no comparison with NaN holds, and the sort
    leaves the rows as they are.  With a record whose [trades] is a list the
    leaderboard returns no rows: it raises [TypeError]. *)
Theorem leaderboard_not_descending :
  (exists (r1 r2 r3 : leaderboard_row) (timestamp : string),
      fst (get_leaderboard 3 (world_of (document_of users_with_nan)))
        = Ok ([r1; r2; r3], timestamp) /\
      lb_user_id r1 = "ann" /\ lb_balance r1 = 1%float /\
      lb_user_id r2 = "bob" /\ is_nan (lb_balance r2) = true /\
      lb_user_id r3 = "cid" /\ lb_balance r3 = 2%float /\
      (lb_balance r1 <? lb_balance r3)%float = true) /\
  fst (get_leaderboard 3 (world_of (document_of users_with_list)))
    = Raise TypeError.
Proof.
  split; [|vm_compute; reflexivity].
  eexists _, _, _, _. split; [vm_compute; reflexivity|].
  repeat split; vm_compute; reflexivity.
Qed.

(** ** The manual trigger on a document without users *)

(** X1.  On the automatic path, the rollover of a user update, a document
    without users gains no winners entry. *)
Theorem rollover_without_users (uid : string) (upd : UserUpdate)
  (w : world) :
  users (persisted w) = [] ->
  monthly_winners (persisted (snd (post_user uid upd w)))
  = monthly_winners (persisted w).
Proof.
  intros Hnil.
  destruct (run_post_user uid upd w) as (db' & w2 & _ & _ & Hmw & ->).
  simpl. unfold persisted at 1. simpl. now apply Hmw.
Qed.

(** C2: the failing input.  On the empty document the manual trigger
    answers "closed" with an empty podium and stores an entry with that
    empty podium under the previous month; so it does when there is no file
    yet. *)
Theorem close_month_without_users_writes_entry :
  fst (post_close_month (world_of default_db)) = Ok (closed "2026-10" []) /\
  monthly_winners (persisted (snd (post_close_month (world_of default_db))))
    !! "2026-10"
  = Some {| we_podium := []; we_closed_at := "2026-11-04T12:00:00Z" |} /\
  monthly_winners (persisted (snd (post_close_month fresh_world)))
    !! "2026-10"
  = Some {| we_podium := []; we_closed_at := "2026-11-04T12:00:00Z" |}.
Proof. repeat split; vm_compute; reflexivity. Qed.

(** X4.  Asking the winners of a month that has no entry raises the 404
    error and leaves the persisted document as it was. *)
Theorem get_winners_not_found (month : string) (w : world) :
  monthly_winners (persisted w) !! month = None ->
  fst (get_winners month w)
    = Raise (HTTPException 404 "No winners for that month") /\
  persisted (snd (get_winners month w)) = persisted w.
Proof.
  intros H. unfold get_winners. rewrite run_bind, run_read_db.
  rewrite H. split; reflexivity.
Qed.

(** X5.  A user that was never written is shown with the starting balance
    5000.0, zero counters and no time of update, and the document stays
    without a record for it. *)
Theorem get_user_default (uid : string) (w : world) :
  users_get uid (users (persisted w)) = None ->
  fst (get_user uid w)
    = Ok {| uv_user_id := uid;
            uv_nickname := VStr EmptyString;
            uv_balance := 5000%float;
            uv_performance := 0%float;
            uv_win_rate := 0%float;
            uv_trades_this_period := 0;
            uv_wins := 0;
            uv_period_start_balance := 5000%float;
            uv_last_update := VNone |} /\
  users_get uid (users (persisted (snd (get_user uid w)))) = None.
Proof.
  intros H. split.
  - unfold get_user. rewrite run_bind, run_read_db, H.
    unfold default_view.
    replace (round2 START_BALANCE) with 5000%float
      by (vm_compute; reflexivity).
    reflexivity.
  - now rewrite run_get_user.
Qed.

(** ** A write, then a read *)

Lemma stamped_nonempty (now : value) (u : record) :
  <["last_update" := now]> u <> ∅.
Proof. apply insert_non_empty. Qed.

(** What [get_user] returns for a stored record that holds a field. *)
Lemma get_user_stored (uid : string) (u : record) (w : world) :
  users_get uid (users (persisted w)) = Some u -> u <> ∅ ->
  fst (get_user uid w)
  = (m ← compute_user_metrics u; Ok (merged_view uid u m)).
Proof.
  intros Hu Hne. unfold get_user. rewrite run_bind, run_read_db, Hu.
  rewrite decide_False by exact Hne.
  rewrite run_bind. unfold lift. destruct (compute_user_metrics u); reflexivity.
Qed.

(** X6.  [get_user] after [post_user] on the same user gives what
    [post_user] gave: the same view when it returned, and the same exception
    when the metrics of the written record raised, for the record is written
    before its metrics are computed. *)
Theorem post_user_then_get_user (uid : string) (upd : UserUpdate)
  (w : world) :
  fst (get_user uid (snd (post_user uid upd w))) = fst (post_user uid upd w).
Proof.
  destruct (run_post_user uid upd w) as (db' & w2 & _ & _ & _ & H).
  cbv zeta in H. rewrite H. simpl.
  erewrite get_user_stored; [reflexivity | | apply stamped_nonempty].
  unfold persisted. simpl. apply users_get_set_eq.
Qed.

(** X7.  The view a recorded trade returns is the view [get_user] returns
    for that user afterwards. *)
Theorem record_trade_then_get_user (uid : string) (tr : TradeRecord)
  (w : world) (v : user_view) :
  fst (record_trade uid tr w) = Ok v ->
  fst (get_user uid (snd (record_trade uid tr w))) = Ok v.
Proof.
  pose proof (run_record_trade uid tr w) as H. cbv zeta in H. rewrite H.
  destruct (negb _); [discriminate|].
  destruct (apply_trade _ _ _) as [u1|e]; [|discriminate].
  simpl. intros Hv.
  erewrite get_user_stored; [exact Hv | | apply stamped_nonempty].
  unfold persisted. simpl. apply users_get_set_eq.
Qed.

(** ** The users a write leaves alone *)

(** X8.  A user update and a trade change the record of their own user
    only: the record of every other user is read back as it was stored. *)
Theorem writers_leave_other_users (uid uid' : string) (w : world) :
  uid <> uid' ->
  (forall upd : UserUpdate,
      users_get uid' (users (persisted (snd (post_user uid upd w))))
      = users_get uid' (users (persisted w))) /\
  (forall tr : TradeRecord,
      users_get uid' (users (persisted (snd (record_trade uid tr w))))
      = users_get uid' (users (persisted w))).
Proof.
  intros Hne. split.
  - intros upd.
    destruct (run_post_user uid upd w) as (db' & w2 & _ & _ & _ & H).
    cbv zeta in H. rewrite H. simpl. unfold persisted at 1. simpl.
    now apply users_get_set_ne.
  - intros tr.
    destruct (record_trade_persisted uid tr w) as [-> | [u' ->]];
      [reflexivity|].
    simpl. now apply users_get_set_ne.
Qed.

Lemma users_get_None (uid : string) (us : users_map) :
  users_get uid us = None <-> uid ∉ us.*1.
Proof.
  induction us as [|[k v] us IH]; simpl.
  - split; [intros _; apply not_elem_of_nil | reflexivity].
  - rewrite not_elem_of_cons. destruct (decide (k = uid)) as [->|Hne].
    + split; [discriminate | intros [? _]; congruence].
    + rewrite IH. split; [intros ?; split; [congruence | assumption]|].
      now intros [_ ?].
Qed.

(** An assignment keeps the keys where they are and puts a new key last. *)
Lemma users_set_keys (uid : string) (u : record) (us : users_map) :
  (users_set uid u us).*1 =
  match users_get uid us with
  | Some _ => us.*1
  | None => us.*1 ++ [uid]
  end.
Proof.
  induction us as [|[k v] us IH]; [reflexivity|].
  simpl users_set. simpl users_get.
  destruct (decide (k = uid)); [reflexivity|].
  rewrite !fmap_cons, IH. now destruct (users_get uid us).
Qed.

(** A request leaves the users mapping, or assigns one record in it. *)
Lemma serve_users (r : request) (w : world) :
  users (persisted (serve r w)) = users (persisted w) \/
  exists (uid : string) (u' : record),
    written_user r = Some uid /\
    users (persisted (serve r w)) = users_set uid u' (users (persisted w)).
Proof.
  destruct r as [limit|uid|uid upd|uid tr| |month|].
  - left. now rewrite (persisted_of_disk _ _ (serve_read (GET_leaderboard limit) w eq_refl)).
  - left. now rewrite (persisted_of_disk _ _ (serve_read (GET_user uid) w eq_refl)).
  - right. simpl. destruct (run_post_user uid upd w) as (db' & w2 & _ & _ & _ & H).
    cbv zeta in H. rewrite H. simpl. eexists _, _. split; reflexivity.
  - simpl. destruct (record_trade_persisted uid tr w) as [-> | [u' ->]];
      [now left|].
    right. eexists _, _. split; reflexivity.
  - left. simpl. pose proof (run_post_close_month w) as H. cbv zeta in H.
    rewrite H. now destruct (monthly_winners _ !! _).
  - left. now rewrite (persisted_of_disk _ _ (serve_read (GET_winners month) w eq_refl)).
  - left. now rewrite (persisted_of_disk _ _ (serve_read GET_latest_winners w eq_refl)).
Qed.

(** X9.  No request removes a user or changes the order of the users: the
    user ids after a request are the ids before it, followed by the id the
    request wrote when that user had no record, and by nothing otherwise. *)
Theorem serve_keeps_user_order (r : request) (w : world) :
  user_ids (persisted (serve r w)) = user_ids (persisted w) \/
  exists uid : string,
    written_user r = Some uid /\
    (uid ∉ user_ids (persisted w)) /\
    user_ids (persisted (serve r w)) = user_ids (persisted w) ++ [uid].
Proof.
  unfold user_ids.
  destruct (serve_users r w) as [-> | (uid & u' & Hr & ->)]; [now left|].
  rewrite users_set_keys.
  destruct (users_get uid (users (persisted w))) eqn:E; [now left|].
  right. exists uid. split; [exact Hr|]. split; [|reflexivity].
  now apply users_get_None.
Qed.

(** X10.  In every document reachable from the empty one each user id is
    stored once. *)
Theorem reachable_user_ids_NoDup (w : world) :
  reachable (fun _ => True) w -> NoDup (user_ids (persisted w)).
Proof.
  unfold user_ids. induction 1 as [w [Hi|Hi]|r w Hw IH _].
  - unfold persisted. rewrite Hi. constructor.
  - unfold persisted. rewrite Hi. constructor.
  - destruct (serve_users r w) as [-> | (uid & u' & _ & ->)]; [exact IH|].
    rewrite users_set_keys.
    destruct (users_get uid (users (persisted w))) eqn:E; [exact IH|].
    apply NoDup_app. split; [exact IH|]. split.
    + intros x Hx. rewrite list_elem_of_singleton. intros ->.
      now apply users_get_None in E.
    + apply NoDup_singleton.
Qed.

(** X11.  A trade never closes a month: it leaves the winners mapping and
    [last_month_closed] as they were, whatever the date. *)
Theorem record_trade_leaves_months (uid : string) (tr : TradeRecord)
  (w : world) :
  monthly_winners (persisted (snd (record_trade uid tr w)))
  = monthly_winners (persisted w) /\
  last_month_closed (persisted (snd (record_trade uid tr w)))
  = last_month_closed (persisted w).
Proof.
  destruct (record_trade_persisted uid tr w) as [-> | [u' ->]]; split;
    reflexivity.
Qed.

(** ** The automatic rollover, reading by reading *)

Lemma run_rollover_eq (db : document) (w : world) :
  rollover db w =
  if decide (last_month_closed db = Some (month_key_at w)) then
    (Ok db, later 1 w)
  else
    match monthly_winners db !! prev_month_at (later 1 w) with
    | Some _ =>
        (Ok (set_last_month_closed db (Some (month_key_at w))), later 2 w)
    | None =>
        match compute_podium_snapshot (users db) 3 with
        | [] =>
            (Ok (set_last_month_closed db (Some (month_key_at w))), later 2 w)
        | p :: podium =>
            (Ok (set_last_month_closed
                   (set_monthly_winners db
                      (<[prev_month_at (later 1 w) :=
                           {| we_podium := p :: podium;
                              we_closed_at := now_at (later 2 w) |}]>
                         (monthly_winners db)))
                   (Some (month_key_at w))),
             later 3 w)
        end
    end.
Proof.
  unfold rollover. rewrite run_bind.
  change (_get_month_key w) with (Ok (month_key_at w), later 1 w).
  cbv beta iota.
  destruct (decide (last_month_closed db = Some (month_key_at w)));
    [reflexivity|].
  rewrite run_bind, run_prev_month_key, run_bind.
  change {| disk := disk (later 1 w); clock := clock (later 1 w);
            ticks := S (ticks (later 1 w)) |} with (later 2 w).
  destruct (monthly_winners db !! prev_month_at (later 1 w)); [reflexivity|].
  destruct (compute_podium_snapshot (users db) 3); reflexivity.
Qed.

(** The document [post_user] writes: the one the rollover returned, with
    one record assigned. *)
Lemma post_user_persisted (uid : string) (upd : UserUpdate) (w : world) :
  exists (db' : document) (w' : world) (u' : record),
    rollover (persisted w) (set_disk w (Some (persisted w))) = (Ok db', w') /\
    persisted (snd (post_user uid upd w))
    = set_users db' (users_set uid u' (users db')).
Proof.
  unfold post_user. rewrite run_bind, run_read_db, run_bind.
  destruct (run_rollover (persisted w) (set_disk w (Some (persisted w))))
    as (db' & w2 & E & _).
  rewrite E. exists db', w2. eexists. split; [reflexivity|].
  rewrite run_bind, run_now_iso_eq. simpl.
  destruct (compute_user_metrics _); reflexivity.
Qed.

Lemma compute_podium_snapshot_length (us : users_map) (top_n : Z) :
  length (compute_podium_snapshot us top_n)
  = Z.to_nat (Z.min top_n (Z.of_nat (length us))).
Proof.
  unfold compute_podium_snapshot.
  rewrite length_imap, length_take, podium_ranked_length. lia.
Qed.

(** X12.  After a user update, [last_month_closed] is the key of the month
    the update was made in. *)
Theorem post_user_marks_month (uid : string) (upd : UserUpdate) (w : world) :
  last_month_closed (persisted (snd (post_user uid upd w)))
  = Some (month_key_at w).
Proof.
  destruct (post_user_persisted uid upd w) as (db' & w' & u' & E & ->).
  rewrite run_rollover_eq in E. simpl.
  change (month_key_at (set_disk w (Some (persisted w))))
    with (month_key_at w) in E.
  destruct (decide (last_month_closed (persisted w) = Some (month_key_at w)))
    as [Hm|Hm].
  { injection E as <- _. exact Hm. }
  destruct (monthly_winners (persisted w) !! _).
  { injection E as <- _. reflexivity. }
  destruct (compute_podium_snapshot _ 3); injection E as <- _; reflexivity.
Qed.

(** X13.  A user update made in the month [last_month_closed] names takes no
    snapshot: the winners mapping stays as it was, also when there are users
    and the previous month has no entry. *)
Theorem post_user_same_month (uid : string) (upd : UserUpdate) (w : world) :
  last_month_closed (persisted w) = Some (month_key_at w) ->
  monthly_winners (persisted (snd (post_user uid upd w)))
  = monthly_winners (persisted w).
Proof.
  intros Hm.
  destruct (post_user_persisted uid upd w) as (db' & w' & u' & E & ->).
  rewrite run_rollover_eq in E.
  change (month_key_at (set_disk w (Some (persisted w))))
    with (month_key_at w) in E.
  rewrite decide_True in E by exact Hm. injection E as <- _. reflexivity.
Qed.

(** X14.  The first user update of a month whose previous month has no
    entry stores, when there are users, the podium of the users as they were
    before the update, under the key of the previous month, and keeps the
    other entries. *)
Theorem post_user_snapshots_before_update (uid : string) (upd : UserUpdate)
  (w : world) :
  last_month_closed (persisted w) <> Some (month_key_at w) ->
  monthly_winners (persisted w) !! prev_month_at (later 1 w) = None ->
  users (persisted w) <> [] ->
  monthly_winners (persisted (snd (post_user uid upd w)))
  = <[prev_month_at (later 1 w) :=
        {| we_podium := compute_podium_snapshot (users (persisted w)) 3;
           we_closed_at := now_at (later 2 w) |}]>
      (monthly_winners (persisted w)).
Proof.
  intros Hm Hprev Hus.
  destruct (post_user_persisted uid upd w) as (db' & w' & u' & E & ->).
  rewrite run_rollover_eq in E.
  change (month_key_at (set_disk w (Some (persisted w))))
    with (month_key_at w) in E.
  change (prev_month_at (later 1 (set_disk w (Some (persisted w)))))
    with (prev_month_at (later 1 w)) in E.
  change (now_at (later 2 (set_disk w (Some (persisted w)))))
    with (now_at (later 2 w)) in E.
  rewrite decide_False in E by exact Hm. rewrite Hprev in E.
  destruct (compute_podium_snapshot (users (persisted w)) 3) as [|p podium]
    eqn:Ep.
  - exfalso. apply Hus. apply (f_equal length) in Ep.
    rewrite compute_podium_snapshot_length in Ep.
    destruct (users (persisted w)); [reflexivity|]. simpl in Ep. lia.
  - injection E as <- _. reflexivity.
Qed.

(** ** The manual trigger *)

(** X15.  The manual trigger run a second time for the same previous month
    answers "already_closed" and writes nothing, whatever the first run
    did. *)
Theorem close_month_twice (w : world) :
  prev_month_at (snd (post_close_month w)) = prev_month_at w ->
  fst (post_close_month (snd (post_close_month w)))
  = Ok (already_closed (prev_month_at w)) /\
  persisted (snd (post_close_month (snd (post_close_month w))))
  = persisted (snd (post_close_month w)).
Proof.
  intros Hprev.
  assert (is_Some (monthly_winners (persisted (snd (post_close_month w)))
                     !! prev_month_at w)) as [e He].
  { pose proof (run_post_close_month w) as H. cbv zeta in H. rewrite H.
    destruct (monthly_winners (persisted w) !! prev_month_at w) eqn:E; simpl.
    - unfold persisted at 1. simpl. rewrite E. eauto.
    - unfold persisted at 1. simpl. rewrite lookup_insert_eq. eauto. }
  pose proof (run_post_close_month (snd (post_close_month w))) as H.
  cbv zeta in H. rewrite H, Hprev, He. split; reflexivity.
Qed.

(** X16.  When the manual trigger answers "closed", the month is the
    previous month, the podium is the podium of the users, and
    [get_winners] for that month then returns that podium with the time of
    the closing; [last_month_closed] names the month of the closing. *)
Theorem close_month_then_get_winners (w : world) (m : string)
  (p : list podium_entry) :
  fst (post_close_month w) = Ok (closed m p) ->
  m = prev_month_at w /\
  p = compute_podium_snapshot (users (persisted w)) 3 /\
  fst (get_winners m (snd (post_close_month w)))
  = Ok (m, {| we_podium := p; we_closed_at := now_at (later 1 w) |}) /\
  last_month_closed (persisted (snd (post_close_month w)))
  = Some (month_key_at (later 2 w)) /\
  users (persisted (snd (post_close_month w))) = users (persisted w).
Proof.
  pose proof (run_post_close_month w) as H. cbv zeta in H. rewrite H.
  destruct (monthly_winners (persisted w) !! prev_month_at w) eqn:E;
    [discriminate|].
  simpl. intros [= <- <-]. split; [reflexivity|]. split; [reflexivity|].
  split; [|split; reflexivity].
  unfold get_winners. rewrite run_bind, run_read_db.
  unfold persisted at 1. simpl. rewrite lookup_insert_eq. reflexivity.
Qed.

(** ** The stored podiums *)

Lemma podium_at_most_3 (us : users_map) :
  (length (compute_podium_snapshot us 3) <= 3)%nat.
Proof. rewrite compute_podium_snapshot_length. lia. Qed.

Lemma serve_podiums (r : request) (w : world) :
  podiums_at_most 3 (persisted w) -> podiums_at_most 3 (persisted (serve r w)).
Proof.
  intros Hw. destruct r as [limit|uid|uid upd|uid tr| |month|].
  - now rewrite (persisted_of_disk _ _ (serve_read (GET_leaderboard limit) w eq_refl)).
  - now rewrite (persisted_of_disk _ _ (serve_read (GET_user uid) w eq_refl)).
  - simpl.
    destruct (post_user_persisted uid upd w) as (db' & w' & u' & E & ->).
    rewrite run_rollover_eq in E. unfold podiums_at_most. simpl.
    destruct (decide _).
    { injection E as <- _. exact Hw. }
    destruct (monthly_winners (persisted w) !! _).
    { injection E as <- _. exact Hw. }
    destruct (compute_podium_snapshot _ 3) as [|p podium] eqn:Ep;
      injection E as <- _; [exact Hw|].
    simpl. apply map_Forall_insert_2; [|exact Hw].
    change (length (p :: podium) <= 3)%nat.
    rewrite <- Ep. apply podium_at_most_3.
  - simpl. destruct (record_trade_persisted uid tr w) as [-> | [u' ->]];
      exact Hw.
  - simpl. pose proof (run_post_close_month w) as H. cbv zeta in H.
    rewrite H. destruct (monthly_winners (persisted w) !! _); [exact Hw|].
    unfold podiums_at_most, persisted at 1. simpl.
    apply map_Forall_insert_2; [|exact Hw]. apply podium_at_most_3.
  - now rewrite (persisted_of_disk _ _ (serve_read (GET_winners month) w eq_refl)).
  - now rewrite (persisted_of_disk _ _ (serve_read GET_latest_winners w eq_refl)).
Qed.

(** X17.  In every document reachable from the empty one, every stored
    podium has at most three entries. *)
Theorem reachable_podiums (w : world) :
  reachable (fun _ => True) w -> podiums_at_most 3 (persisted w).
Proof.
  induction 1 as [w [Hi|Hi]|r w Hw IH _].
  - unfold podiums_at_most, persisted. rewrite Hi. apply map_Forall_empty.
  - unfold podiums_at_most, persisted. rewrite Hi. apply map_Forall_empty.
  - now apply serve_podiums.
Qed.

(** ** The order of strings *)

Lemma ascii_compare_refl (c : ascii) : Ascii.compare c c = Eq.
Proof. apply N.compare_refl. Qed.

Lemma ascii_compare_lt_trans (a b c : ascii) :
  Ascii.compare a b = Lt -> Ascii.compare b c = Lt -> Ascii.compare a c = Lt.
Proof.
  unfold Ascii.compare. rewrite !N.compare_lt_iff. apply N.lt_trans.
Qed.

Lemma string_compare_lt_trans (s1 s2 s3 : string) :
  String.compare s1 s2 = Lt -> String.compare s2 s3 = Lt ->
  String.compare s1 s3 = Lt.
Proof.
  revert s2 s3. induction s1 as [|a s1 IH]; intros [|b s2] [|c s3]; simpl;
    try discriminate; try reflexivity.
  destruct (Ascii.compare a b) eqn:Eab; try discriminate.
  - apply Ascii.compare_eq_iff in Eab as ->.
    destruct (Ascii.compare b c); try discriminate; eauto.
  - intros _. destruct (Ascii.compare b c) eqn:Ebc; try discriminate.
    + apply Ascii.compare_eq_iff in Ebc as <-. now rewrite Eab.
    + intros _. now rewrite (ascii_compare_lt_trans _ _ _ Eab Ebc).
Qed.

Lemma string_ltb_lt (s1 s2 : string) :
  String.ltb s1 s2 = true <-> String.compare s1 s2 = Lt.
Proof.
  unfold String.ltb. destruct (String.compare s1 s2); split; congruence.
Qed.

Lemma string_leb_not_ltb (s1 s2 : string) :
  String.leb s2 s1 = true <-> String.ltb s1 s2 = false.
Proof.
  unfold String.leb, String.ltb. rewrite (String.compare_antisym s2 s1).
  destruct (String.compare s1 s2); simpl; split; congruence.
Qed.

Lemma string_leb_refl (s : string) : String.leb s s = true.
Proof.
  apply string_leb_not_ltb. unfold String.ltb.
  destruct (String.compare s s) eqn:E; try reflexivity.
  pose proof (String.compare_antisym s s) as H. rewrite E in H. discriminate.
Qed.

(** The item [last_sorted] returns is an item of the list whose key no key
    of the list exceeds. *)
Lemma last_sorted_greatest {V : Type} (items : list (string * V)) :
  match last_sorted items with
  | None => items = []
  | Some kv =>
      kv ∈ items /\
      Forall (fun kv' => String.leb (fst kv') (fst kv) = true) items
  end.
Proof.
  induction items as [|kv items IH]; simpl; [reflexivity|].
  destruct (last_sorted items) as [kv'|].
  - destruct IH as [Hin Hall].
    destruct (String.ltb (fst kv') (fst kv)) eqn:E.
    + split; [left|]. constructor; [apply string_leb_refl|].
      eapply Forall_impl; [exact Hall|]. intros x Hx. simpl in Hx.
      apply string_leb_not_ltb. apply string_leb_not_ltb in Hx.
      destruct (String.ltb (fst kv) (fst x)) eqn:E'; [|reflexivity].
      apply string_ltb_lt in E, E'.
      pose proof (string_compare_lt_trans _ _ _ E E') as Ht.
      apply string_ltb_lt in Ht. congruence.
    + split; [now right|]. constructor; [|exact Hall].
      now apply string_leb_not_ltb.
  - subst items. split; [left|]. repeat constructor. apply string_leb_refl.
Qed.

(** ** The order of month keys *)

Lemma string_compare_app (s1 s2 t1 t2 : string) :
  String.length s1 = String.length s2 ->
  String.compare (s1 +:+ t1) (s2 +:+ t2) =
  match String.compare s1 s2 with
  | Eq => String.compare t1 t2
  | c => c
  end.
Proof.
  revert s2. induction s1 as [|a s1 IH]; intros [|b s2]; simpl;
    try discriminate; [reflexivity|].
  intros [= Hlen]. destruct (Ascii.compare a b); auto.
Qed.

Lemma string_length_app (s t : string) :
  String.length (s +:+ t) = (String.length s + String.length t)%nat.
Proof. induction s as [|a s IH]; simpl; [reflexivity | now rewrite IH]. Qed.

Lemma length_zpad (width : nat) (n : Z) : String.length (zpad width n) = width.
Proof.
  revert n. induction width as [|w IH]; intros n; simpl; [reflexivity|].
  rewrite string_length_app, IH. simpl. lia.
Qed.

Lemma digit_compare (x y : Z) :
  0 <= x < 10 -> 0 <= y < 10 ->
  Ascii.compare (digit_char x) (digit_char y) = Z.compare x y.
Proof.
  intros Hx Hy.
  assert (x = 0 \/ x = 1 \/ x = 2 \/ x = 3 \/ x = 4 \/ x = 5 \/ x = 6 \/
          x = 7 \/ x = 8 \/ x = 9) as Hx' by lia.
  assert (y = 0 \/ y = 1 \/ y = 2 \/ y = 3 \/ y = 4 \/ y = 5 \/ y = 6 \/
          y = 7 \/ y = 8 \/ y = 9) as Hy' by lia.
  clear Hx Hy.
  repeat (destruct Hx' as [->|Hx']); try subst x;
    repeat (destruct Hy' as [->|Hy']); try subst y; reflexivity.
Qed.

Lemma compare_digits (a b : Z) :
  match a / 10 ?= b / 10 with
  | Eq => a mod 10 ?= b mod 10
  | c => c
  end = (a ?= b).
Proof.
  pose proof (Z.div_mod a 10 ltac:(lia)) as Ha.
  pose proof (Z.div_mod b 10 ltac:(lia)) as Hb.
  pose proof (Z.mod_pos_bound a 10 ltac:(lia)).
  pose proof (Z.mod_pos_bound b 10 ltac:(lia)).
  destruct (Z.compare_spec (a / 10) (b / 10)) as [E|E|E].
  - destruct (Z.compare_spec (a mod 10) (b mod 10));
      symmetry; [apply Z.compare_eq_iff | apply Z.compare_lt_iff
                 | apply Z.compare_gt_iff]; lia.
  - symmetry. apply Z.compare_lt_iff. lia.
  - symmetry. apply Z.compare_gt_iff. lia.
Qed.

Lemma string_compare_singleton (c1 c2 : ascii) :
  String.compare (String c1 EmptyString) (String c2 EmptyString)
  = Ascii.compare c1 c2.
Proof. simpl. now destruct (Ascii.compare c1 c2). Qed.

Lemma split_last_digit (a p : Z) :
  0 < p ->
  (a mod (10 * p)) / 10 = (a / 10) mod p /\ (a mod (10 * p)) mod 10 = a mod 10.
Proof.
  intros Hp. rewrite (Z.rem_mul_r a 10 p) by lia.
  pose proof (Z.mod_pos_bound a 10 ltac:(lia)) as Ha.
  split.
  - rewrite (Z.add_comm (a mod 10)), (Z.mul_comm 10).
    rewrite Z.div_add_l by lia. rewrite (Z.div_small (a mod 10)) by exact Ha.
    lia.
  - rewrite (Z.mul_comm 10), Z.mod_add by lia. apply Z.mod_mod. lia.
Qed.

(** Numbers padded to one width compare as texts the way they compare as
    numbers. *)
Lemma zpad_compare (width : nat) (a b : Z) :
  String.compare (zpad width a) (zpad width b)
  = (a mod 10 ^ Z.of_nat width ?= b mod 10 ^ Z.of_nat width).
Proof.
  revert a b. induction width as [|w IH]; intros a b.
  - simpl. now rewrite !Z.mod_1_r.
  - cbn [zpad]. rewrite string_compare_app by (now rewrite !length_zpad).
    rewrite IH, string_compare_singleton.
    rewrite digit_compare by (apply Z.mod_pos_bound; lia).
    replace (10 ^ Z.of_nat (S w)) with (10 * 10 ^ Z.of_nat w).
    2:{ rewrite Nat2Z.inj_succ, Z.pow_succ_r by lia. reflexivity. }
    set (p := 10 ^ Z.of_nat w).
    assert (0 < p) as Hp by (apply Z.pow_pos_nonneg; lia).
    rewrite <- (compare_digits (a mod (10 * p)) (b mod (10 * p))).
    destruct (split_last_digit a p Hp) as [-> ->].
    destruct (split_last_digit b p Hp) as [-> ->].
    reflexivity.
Qed.

Lemma zpad_compare_small (width : nat) (a b : Z) :
  0 <= a < 10 ^ Z.of_nat width -> 0 <= b < 10 ^ Z.of_nat width ->
  String.compare (zpad width a) (zpad width b) = (a ?= b).
Proof.
  intros Ha Hb. rewrite zpad_compare. now rewrite !Z.mod_small.
Qed.

Lemma string_compare_refl (s : string) : String.compare s s = Eq.
Proof.
  induction s as [|a s IH]; simpl; [reflexivity|].
  now rewrite ascii_compare_refl.
Qed.

Lemma strftime_Ym_compare (d1 d2 : datetime) :
  calendar_month d1 -> calendar_month d2 ->
  String.compare (strftime_Ym d1) (strftime_Ym d2) =
  match year d1 ?= year d2 with
  | Eq => month d1 ?= month d2
  | c => c
  end.
Proof.
  intros [Hy1 Hm1] [Hy2 Hm2]. unfold strftime_Ym.
  rewrite string_compare_app by (now rewrite !length_zpad).
  rewrite zpad_compare_small by (simpl; lia).
  destruct (year d1 ?= year d2); try reflexivity.
  change (String.compare (zpad 2 (month d1)) (zpad 2 (month d2))
          = (month d1 ?= month d2)).
  apply zpad_compare_small; simpl; lia.
Qed.

(** X18.  Month keys order as their months do: for dates of four-digit
    years, one key is below another as a text exactly when its month is the
    earlier one, and two keys are equal exactly when year and month are. *)
Theorem month_keys_chronological (d1 d2 : datetime) :
  calendar_month d1 -> calendar_month d2 ->
  (String.ltb (strftime_Ym d1) (strftime_Ym d2) = true <->
   earlier_month d1 d2) /\
  (strftime_Ym d1 = strftime_Ym d2 <->
   year d1 = year d2 /\ month d1 = month d2).
Proof.
  intros H1 H2. pose proof (strftime_Ym_compare d1 d2 H1 H2) as Hc.
  unfold earlier_month. split.
  - rewrite string_ltb_lt, Hc.
    destruct (Z.compare_spec (year d1) (year d2)) as [E|E|E].
    + rewrite Z.compare_lt_iff. lia.
    + split; [auto | reflexivity].
    + split; [discriminate | lia].
  - split.
    + intros E. rewrite E, string_compare_refl in Hc.
      destruct (Z.compare_spec (year d1) (year d2)) as [Ey|Ey|Ey];
        try discriminate.
      symmetry in Hc. apply Z.compare_eq_iff in Hc. auto.
    + intros [Ey Em]. unfold strftime_Ym. now rewrite Ey, Em.
Qed.

(** X19.  The key of the previous month stands, as a text, below the key of
    the month of the reading, across the turn of the year too, and no month
    lies between the two: the key of every earlier month is at most the key
    of the previous month. *)
Theorem prev_month_key_precedes (w : world) :
  1000 < year (clock w (ticks w)) <= 9999 ->
  1 <= month (clock w (ticks w)) <= 12 ->
  String.ltb (prev_month_at w) (month_key_at w) = true /\
  (forall d : datetime,
      calendar_month d -> earlier_month d (clock w (ticks w)) ->
      String.leb (strftime_Ym d) (prev_month_at w) = true).
Proof.
  intros Hy Hm. unfold prev_month_at, month_key_at.
  set (dt := clock w (ticks w)) in *.
  set (prev := minus_one_day (replace_day1 dt)).
  assert (calendar_month dt) as Hdt by (unfold calendar_month; lia).
  assert (year prev = (if 1 <? month dt then year dt else year dt - 1) /\
          month prev = (if 1 <? month dt then month dt - 1 else 12))
    as [Eyp Emp].
  { unfold prev, minus_one_day, replace_day1. simpl.
    destruct (1 <? month dt); split; reflexivity. }
  assert (calendar_month prev) as Hprev.
  { unfold calendar_month. rewrite Eyp, Emp.
    destruct (Z.ltb_spec 1 (month dt)); lia. }
  split.
  - apply string_ltb_lt.
    rewrite (strftime_Ym_compare prev dt Hprev Hdt), Eyp, Emp.
    destruct (Z.ltb_spec 1 (month dt)).
    + rewrite Z.compare_refl. apply Z.compare_lt_iff. lia.
    + replace (year dt - 1 ?= year dt) with Lt; [reflexivity|].
      symmetry. apply Z.compare_lt_iff. lia.
  - intros d Hd He.
    apply string_leb_not_ltb.
    destruct (String.ltb (strftime_Ym prev) (strftime_Ym d)) eqn:E;
      [|reflexivity].
    exfalso. apply string_ltb_lt in E.
    rewrite (strftime_Ym_compare prev d Hprev Hd) in E.
    unfold earlier_month in He. fold dt in He. rewrite Eyp, Emp in E.
    destruct Hd as [Hyd Hmd].
    destruct (Z.ltb_spec 1 (month dt)).
    + destruct (Z.compare_spec (year dt) (year d));
        [rewrite Z.compare_lt_iff in E; lia | lia | discriminate].
    + destruct (Z.compare_spec (year dt - 1) (year d));
        [rewrite Z.compare_lt_iff in E; lia | lia | discriminate].
Qed.

(** ** The latest winners *)

(** X20.  [get_latest_winners] never raises.  It answers that there are no
    winners exactly on an empty winners mapping; otherwise it returns the
    whole mapping and, as the latest, the entry stored under the greatest
    key: no key of the mapping is above it as a text. *)
Theorem latest_winners_greatest_key (w : world) :
  let mw := monthly_winners (persisted w) in
  (mw = ∅ /\ fst (get_latest_winners w) = Ok no_winners) \/
  (exists (k : string) (e : winners_entry),
      fst (get_latest_winners w) = Ok (latest k e mw) /\
      mw !! k = Some e /\
      forall k' : string, is_Some (mw !! k') -> String.leb k' k = true).
Proof.
  intros mw. unfold get_latest_winners. rewrite run_bind, run_read_db.
  fold mw. pose proof (last_sorted_greatest (map_to_list mw)) as H.
  destruct (last_sorted (map_to_list mw)) as [[k e]|].
  - right. destruct H as [Hin Hall]. exists k, e.
    split; [reflexivity|]. split; [now apply elem_of_map_to_list|].
    intros k' [e' He']. rewrite Forall_forall in Hall.
    apply (Hall (k', e')). now apply elem_of_map_to_list.
  - left. split; [|reflexivity]. now apply map_to_list_empty_iff.
Qed.

(** ** The leaderboard and a record that fails *)

Lemma leaderboard_arr_cases (us : users_map) :
  match leaderboard_arr us with
  | Ok arr => Forall (fun kv => is_Ok (compute_user_metrics (snd kv))) us
  | Raise e => exists kv, kv ∈ us /\ compute_user_metrics (snd kv) = Raise e
  end.
Proof.
  induction us as [|[uid u] us IH]; simpl; [constructor|].
  destruct (compute_user_metrics u) as [m|e] eqn:Em; simpl.
  - destruct (leaderboard_arr us) as [arr|e]; simpl.
    + constructor; [exists m; exact Em | exact IH].
    + destruct IH as (kv & Hin & Hkv). exists kv. split; [now right | exact Hkv].
  - exists (uid, u). split; [left | exact Em].
Qed.

(** X21.  The leaderboard is all or nothing: it returns exactly when the
    metrics of every stored record can be computed, whatever the limit, also
    a limit of zero; when it raises, it raises what the metrics of one of
    the stored records raise, an exception of the runtime. *)
Theorem leaderboard_all_or_nothing (limit : Z) (w : world) :
  (is_Ok (fst (get_leaderboard limit w)) <->
   Forall (fun kv => is_Ok (compute_user_metrics (snd kv)))
          (users (persisted w))) /\
  (forall e : exn,
      fst (get_leaderboard limit w) = Raise e ->
      runtime_exn e /\
      exists (uid : string) (u : record),
        (uid, u) ∈ users (persisted w) /\ compute_user_metrics u = Raise e).
Proof.
  unfold get_leaderboard. rewrite run_bind, run_read_db, run_bind.
  unfold lift. generalize (leaderboard_arr_cases (users (persisted w))).
  destruct (leaderboard_arr (users (persisted w))) as [arr|e0]; simpl;
    intros H.
  - split; [|discriminate]. split; [intros _; exact H|].
    intros _. eexists. reflexivity.
  - destruct H as ([uid u] & Hin & Hkv). split.
    + split; [intros [? ?]; discriminate|].
      intros Hall. rewrite Forall_forall in Hall.
      destruct (Hall _ Hin) as [m Hm]. simpl in *. congruence.
    + intros e [= <-]. split.
      * exact (compute_user_metrics_raises_runtime _ _ Hkv).
      * exists uid, u. auto.
Qed.

(** ** The nickname *)

Lemma str_take_length (n : nat) (s : string) :
  String.length (str_take n s) = (n `min` String.length s)%nat.
Proof.
  revert s. induction n as [|n IH]; intros [|c s]; simpl; auto.
Qed.

Lemma str_take_prefix (n : nat) (s : string) :
  String.prefix (str_take n s) s = true.
Proof.
  revert s. induction n as [|n IH]; intros [|c s]; simpl; auto.
  destruct (ascii_dec c c); [apply IH | congruence].
Qed.

Lemma str_take_all (n : nat) (s : string) :
  (String.length s <= n)%nat -> str_take n s = s.
Proof.
  revert s. induction n as [|n IH]; intros [|c s]; simpl; auto; try lia.
  intros H. f_equal. apply IH. lia.
Qed.

(** X22.  A user update that provides a nickname stores and returns its
    first 40 characters: a text of at most 40 characters that the nickname
    begins with, and the nickname itself when it has at most 40. *)
Theorem post_user_truncates_nickname (uid : string) (upd : UserUpdate)
  (w : world) (n : string) (v : user_view) :
  upd_nickname upd = Some n ->
  fst (post_user uid upd w) = Ok v ->
  exists (s : string) (u' : record),
    uv_nickname v = VStr s /\
    users_get uid (users (persisted (snd (post_user uid upd w)))) = Some u' /\
    u' !! "nickname" = Some (VStr s) /\
    String.length s = (40 `min` String.length n)%nat /\
    String.prefix s n = true /\
    ((String.length n <= 40)%nat -> s = n).
Proof.
  intros Hn.
  destruct (run_post_user uid upd w) as (db' & w2 & _ & _ & _ & H).
  cbv zeta in H. rewrite H. clear H. simpl.
  set (u' := <["last_update" := _]> _).
  assert (u' !! "nickname" = Some (VStr (str_take 40 n))) as Hnick.
  { unfold u'. rewrite updated_record_lookup by discriminate.
    unfold update_of. simpl. now rewrite Hn. }
  destruct (compute_user_metrics u') as [m|e]; simpl; [|discriminate].
  intros [= <-]. exists (str_take 40 n), u'.
  split; [simpl; unfold get; now rewrite Hnick|].
  split; [unfold persisted; simpl; apply users_get_set_eq|].
  split; [exact Hnick|].
  split; [apply str_take_length|].
  split; [apply str_take_prefix | apply str_take_all].
Qed.

(** ** The users of a podium *)

Lemma podium_user_ids (us : users_map) (top_n : Z) :
  pe_user_id <$> compute_podium_snapshot us top_n
  = take (Z.to_nat (Z.min top_n (Z.of_nat (length (podium_ranked us)))))
         (arr_uid <$> podium_ranked us).
Proof.
  unfold compute_podium_snapshot. rewrite fmap_imap, <- fmap_take.
  rewrite <- imap_const. apply imap_ext.
  intros i [[uid nick] bal] _. reflexivity.
Qed.

Lemma podium_ranked_ids (us : users_map) :
  arr_uid <$> podium_ranked us ≡ₚ us.*1.
Proof.
  unfold podium_ranked. rewrite sort_desc_perm. unfold podium_arr.
  rewrite <- list_fmap_compose.
  erewrite list_fmap_ext; [reflexivity|]. now intros i [uid u] _.
Qed.

(** X23.  The users of a podium are stored users, and no user stands on a
    podium twice when no user id is stored twice. *)
Theorem podium_users_distinct (us : users_map) (top_n : Z) :
  (forall e : podium_entry,
      e ∈ compute_podium_snapshot us top_n -> pe_user_id e ∈ us.*1) /\
  (NoDup us.*1 -> NoDup (pe_user_id <$> compute_podium_snapshot us top_n)).
Proof.
  pose proof (podium_user_ids us top_n) as Hids.
  pose proof (podium_ranked_ids us) as Hperm.
  split.
  - intros e He. rewrite <- Hperm.
    eapply elem_of_sublist; [|apply sublist_take].
    rewrite <- Hids. now apply list_elem_of_fmap_2.
  - intros Hnd. rewrite Hids.
    eapply sublist_NoDup; [|apply sublist_take]. now rewrite Hperm.
Qed.

(** ** The exceptions of the reachable documents *)

Lemma typed_metrics_raise (u : record) (e : exn) :
  typed_fields any_int u ->
  compute_user_metrics u = Raise e -> e = OverflowError.
Proof.
  intros (t & n & b & Ht & Hn & _). unfold compute_user_metrics.
  rewrite (int_or_missing_int u "trades" t) by (rewrite Ht; right; now right).
  rewrite (int_or_missing_int u "wins" n) by (rewrite Hn; right; now right).
  simpl. destruct (Z.leb_spec t 0) as [H|H]; simpl; [discriminate|].
  unfold int_truediv.
  destruct (Z.abs n) as [|p|p] eqn:En, (Z.abs t) as [|d|d] eqn:Et;
    try lia; simpl; try discriminate.
  destruct (is_infinite_SF _); simpl; [now intros [= <-] | discriminate].
Qed.

Lemma exn_of_Some {A : Type} (r : result A) (e : exn) :
  exn_of r = Some e <-> r = Raise e.
Proof. destruct r; simpl; split; congruence. Qed.

(** X24.  From the empty document, whatever requests were served, a
    request raises nothing but: the client error of a trade whose result is
    neither "win" nor "lose"; the not-found error of a month without
    winners; and [OverflowError], from a win rate too large for a float.
    The manual trigger and the latest winners never raise. *)
Theorem reachable_errors (r : request) (w : world) (e : exn) :
  reachable (fun _ => True) w ->
  raised r w = Some e ->
  match r with
  | GET_leaderboard _ | GET_user _ | POST_user _ _ => e = OverflowError
  | POST_trade _ tr =>
      e = OverflowError \/
      (e = invalid_result /\
       lower (tr_result tr) <> "win" /\ lower (tr_result tr) <> "lose")
  | GET_winners month =>
      e = not_found /\ monthly_winners (persisted w) !! month = None
  | POST_close_month | GET_latest_winners => False
  end.
Proof.
  intros Hw.
  pose proof (reachable_fields any_int w I (fun _ _ => I)
                (reachable_any_int w Hw)) as Htyped.
  destruct r as [limit|uid|uid upd|uid tr| |month|]; simpl;
    rewrite exn_of_Some.
  - unfold get_leaderboard. rewrite run_bind, run_read_db, run_bind.
    unfold lift.
    generalize (leaderboard_arr_cases (users (persisted w))).
    destruct (leaderboard_arr (users (persisted w))) as [arr|e0]; simpl;
      intros H; [discriminate|].
    destruct H as ([k u] & Hin & Hkv). intros [= <-].
    unfold typed_records in Htyped. rewrite Forall_forall in Htyped.
    exact (typed_metrics_raise _ _ (Htyped _ Hin) Hkv).
  - unfold get_user. rewrite run_bind, run_read_db.
    destruct (users_get uid (users (persisted w))) as [u|] eqn:Eu;
      [|discriminate].
    destruct (decide (u = ∅)); [discriminate|].
    rewrite run_bind. unfold lift.
    destruct (compute_user_metrics u) as [m|e0] eqn:Em; simpl;
      [discriminate|].
    intros [= <-]. apply users_get_elem_of in Eu.
    unfold typed_records in Htyped. rewrite Forall_forall in Htyped.
    exact (typed_metrics_raise _ _ (Htyped _ Eu) Em).
  - destruct (run_post_user uid upd w) as (db' & w2 & _ & _ & _ & H).
    cbv zeta in H. rewrite H. clear H. simpl.
    destruct (compute_user_metrics _) as [m|e0] eqn:Em; simpl;
      [discriminate|].
    intros [= <-]. apply (typed_metrics_raise _ _) in Em; [exact Em|].
    apply updated_record_counters;
      [now destruct (upd_trades upd) | now destruct (upd_wins upd) |].
    now apply stored_counters.
  - pose proof (run_record_trade uid tr w) as H. cbv zeta in H. rewrite H.
    clear H.
    destruct (negb _) eqn:Hres; simpl.
    { intros [= <-]. right. split; [reflexivity|].
      now apply valid_result_iff. }
    assert (typed_fields any_int
              (ensure_fields
                 (default new_user (users_get uid (users (persisted w))))))
      as Hu by (apply ensure_fields_counters; now apply stored_counters).
    destruct Hu as (t & n & b & Ht & Hn & Hb & _).
    destruct (apply_trade_typed (lower (tr_result tr)) (tr_amount tr) _ t n b
                Ht Hn Hb) as (u1 & -> & Ht1 & Hn1 & Hb1 & _).
    simpl.
    destruct (compute_user_metrics _) as [m|e0] eqn:Em; simpl;
      [discriminate|].
    intros [= <-]. left. apply (typed_metrics_raise _ _) in Em; [exact Em|].
    apply insert_last_update_counters.
    eexists _, _, _. repeat split; eauto.
  - pose proof (run_post_close_month w) as H. cbv zeta in H. rewrite H.
    destruct (monthly_winners _ !! _); discriminate.
  - unfold get_winners. rewrite run_bind, run_read_db.
    destruct (monthly_winners (persisted w) !! month); [discriminate|].
    intros [= <-]. split; reflexivity.
  - unfold get_latest_winners. rewrite run_bind, run_read_db.
    destruct (last_sorted _) as [[k e0]|]; discriminate.
Qed.

(** ** The same update twice *)

Lemma kept_kept (upd : UserUpdate) (now : string) (u : record) (k : string) :
  k <> "last_update" ->
  kept k (<["last_update" := VStr now]> (ensure_fields (apply_update upd u)))
  = match update_of upd k with
    | Some v => Some v
    | None => kept k u
    end.
Proof.
  intros Hk. unfold kept at 1. rewrite updated_record_lookup by exact Hk.
  destruct (update_of upd k) as [v|]; [reflexivity|].
  unfold kept. destruct (u !! k) as [v|]; [reflexivity|].
  now destruct (field_default k).
Qed.

(** X25.  A user update is idempotent on the record: the same update posted
    a second time leaves every field of the record but the time of the
    update as the first one wrote it. *)
Theorem post_user_twice (uid : string) (upd : UserUpdate) (w : world) :
  exists u1 u2 : record,
    users_get uid (users (persisted (snd (post_user uid upd w)))) = Some u1 /\
    users_get uid
      (users (persisted (snd (post_user uid upd (snd (post_user uid upd w))))))
    = Some u2 /\
    (forall k : string, k <> "last_update" -> u2 !! k = u1 !! k).
Proof.
  destruct (run_post_user uid upd w) as (db1 & w1 & _ & _ & _ & H1).
  cbv zeta in H1. rewrite H1. clear H1. simpl snd.
  set (u1 := <["last_update" := _]> _).
  set (w' := {| disk := _; clock := clock w1; ticks := S (ticks w1) |}).
  assert (users_get uid (users (persisted w')) = Some u1) as Hu1.
  { unfold w', persisted. simpl. apply users_get_set_eq. }
  destruct (run_post_user uid upd w') as (db2 & w2 & _ & _ & _ & H2).
  cbv zeta in H2. rewrite H2. clear H2. rewrite Hu1. simpl.
  eexists _, _. split; [reflexivity|].
  split; [unfold persisted; simpl; apply users_get_set_eq|].
  intros k Hk. rewrite updated_record_lookup by exact Hk.
  unfold u1 at 1. rewrite kept_kept by exact Hk.
  unfold u1. rewrite updated_record_lookup by exact Hk.
  now destruct (update_of upd k).
Qed.

(** ** The leaderboard under two limits *)

(** X26.  On one document, the leaderboard of a smaller limit is the
    beginning of the leaderboard of a larger limit, whenever the two are
    read. *)
Theorem leaderboard_limit_prefix (limit1 limit2 : Z) (w1 w2 : world)
  (rows1 rows2 : list leaderboard_row) (t1 t2 : string) :
  persisted w1 = persisted w2 ->
  limit1 <= limit2 ->
  fst (get_leaderboard limit1 w1) = Ok (rows1, t1) ->
  fst (get_leaderboard limit2 w2) = Ok (rows2, t2) ->
  rows1 `prefix_of` rows2.
Proof.
  intros Hp Hl. unfold get_leaderboard.
  rewrite !run_bind, !run_read_db, !run_bind, Hp. unfold lift.
  destruct (leaderboard_arr (users (persisted w2))) as [arr|e]; simpl;
    [|discriminate].
  intros [= <- _] [= <- _].
  set (sorted := sort_desc lb_balance arr).
  assert (Z.to_nat (clamp_limit limit1) <= Z.to_nat (clamp_limit limit2))%nat
    as Hle by (unfold clamp_limit; lia).
  exists (drop (Z.to_nat (clamp_limit limit1))
               (take (Z.to_nat (clamp_limit limit2)) sorted)).
  rewrite <- (take_drop (Z.to_nat (clamp_limit limit1))
                (take (Z.to_nat (clamp_limit limit2)) sorted)) at 1.
  f_equal. rewrite take_take. f_equal. lia.
Qed.

(** ** A write that raises *)

(** X27.  A user update that raises has written its record all the same:
    the exception is the one the metrics of the stored record raise.  A
    trade that raises has written nothing, or has written the record whose
    metrics raise that exception. *)
Theorem writers_raise_after_write (uid : string) (w : world) (e : exn) :
  (forall upd : UserUpdate,
      fst (post_user uid upd w) = Raise e ->
      exists u' : record,
        users_get uid (users (persisted (snd (post_user uid upd w))))
        = Some u' /\
        compute_user_metrics u' = Raise e) /\
  (forall tr : TradeRecord,
      fst (record_trade uid tr w) = Raise e ->
      persisted (snd (record_trade uid tr w)) = persisted w \/
      exists u' : record,
        users_get uid (users (persisted (snd (record_trade uid tr w))))
        = Some u' /\
        compute_user_metrics u' = Raise e).
Proof.
  split.
  - intros upd.
    destruct (run_post_user uid upd w) as (db' & w2 & _ & _ & _ & H).
    cbv zeta in H. rewrite H. clear H. simpl.
    destruct (compute_user_metrics _) as [m|e0] eqn:Em; simpl;
      [discriminate|].
    intros [= <-]. eexists. split; [|exact Em].
    unfold persisted. simpl. apply users_get_set_eq.
  - intros tr.
    pose proof (run_record_trade uid tr w) as H. cbv zeta in H. rewrite H.
    clear H.
    destruct (negb _); [now left|].
    destruct (apply_trade _ _ _) as [u1|e1]; [|now left].
    simpl. destruct (compute_user_metrics _) as [m|e0] eqn:Em; simpl;
      [discriminate|].
    intros [= <-]. right. eexists. split; [|exact Em].
    unfold persisted. simpl. apply users_get_set_eq.
Qed.

(** ** The leaderboard and the user view *)

Lemma users_get_NoDup (uid : string) (u : record) (us : users_map) :
  NoDup us.*1 -> (uid, u) ∈ us -> users_get uid us = Some u.
Proof.
  induction us as [|[k v] us IH]; simpl; intros Hnd Hin.
  - now apply elem_of_nil in Hin.
  - apply NoDup_cons in Hnd as [Hk Hnd].
    apply elem_of_cons in Hin as [[= -> ->]|Hin].
    + now rewrite decide_True.
    + destruct (decide (k = uid)) as [->|]; [|now apply IH].
      exfalso. apply Hk. change uid with (fst (uid, u)).
      now apply list_elem_of_fmap_2.
Qed.

Lemma leaderboard_arr_elem (us : users_map) (arr : list leaderboard_row)
  (row : leaderboard_row) :
  leaderboard_arr us = Ok arr -> row ∈ arr ->
  exists (uid : string) (u : record) (m : metrics),
    (uid, u) ∈ us /\ compute_user_metrics u = Ok m /\
    row = leaderboard_row_of uid u m.
Proof.
  revert arr. induction us as [|[uid u] us IH]; simpl; intros arr.
  - intros [= <-] Hin. now apply elem_of_nil in Hin.
  - destruct (compute_user_metrics u) as [m|] eqn:Em; simpl; [|discriminate].
    destruct (leaderboard_arr us) as [arr'|]; simpl; [|discriminate].
    intros [= <-] Hin. apply elem_of_cons in Hin as [->|Hin].
    + exists uid, u, m. split; [left | auto].
    + destruct (IH arr' eq_refl Hin) as (uid' & u' & m' & Hin' & Hm' & ->).
      exists uid', u', m'. split; [now right | auto].
Qed.

Lemma empty_record_metrics :
  compute_user_metrics ∅ =
  Ok {| m_performance := 0; m_win_rate := 0; m_trades_this_period := 0;
        m_wins := 0; m_period_start_balance := 5000; m_balance := 5000 |}.
Proof. vm_compute. reflexivity. Qed.

(** X28.  The leaderboard and the user view agree: for every row of a
    leaderboard, [get_user] for the user of the row returns, on the same
    document, the nickname, balance, performance, win rate and trades of the
    row. *)
Theorem leaderboard_rows_agree_with_get_user (limit : Z) (w : world)
  (rows : list leaderboard_row) (ts : string) (row : leaderboard_row) :
  NoDup (user_ids (persisted w)) ->
  fst (get_leaderboard limit w) = Ok (rows, ts) ->
  row ∈ rows ->
  exists v : user_view,
    fst (get_user (lb_user_id row) w) = Ok v /\
    uv_nickname v = lb_nickname row /\
    uv_balance v = lb_balance row /\
    uv_performance v = lb_performance row /\
    uv_win_rate v = lb_win_rate row /\
    uv_trades_this_period v = lb_trades_this_period row.
Proof.
  intros Hnd. unfold get_leaderboard.
  rewrite run_bind, run_read_db, run_bind. unfold lift.
  destruct (leaderboard_arr (users (persisted w))) as [arr|e] eqn:Earr; simpl;
    [|discriminate].
  intros [= <- _] Hrow.
  assert (row ∈ arr) as Hin.
  { rewrite <- (sort_desc_perm lb_balance arr).
    eapply elem_of_sublist; [exact Hrow | apply sublist_take]. }
  destruct (leaderboard_arr_elem _ _ _ Earr Hin)
    as (uid & u & m & Hu & Hm & ->).
  simpl. unfold get_user. rewrite run_bind, run_read_db.
  rewrite (users_get_NoDup uid u _ Hnd Hu).
  destruct (decide (u = ∅)) as [->|Hne].
  - rewrite empty_record_metrics in Hm. injection Hm as <-.
    eexists. split; [reflexivity|]. simpl.
    replace (round2 START_BALANCE) with 5000%float
      by (vm_compute; reflexivity).
    repeat split; reflexivity.
  - rewrite run_bind. unfold lift. rewrite Hm. simpl.
    eexists. split; [reflexivity|]. repeat split; reflexivity.
Qed.

(** ** The fields a trade leaves *)

Lemma apply_trade_frame (res : string) (amount : option float)
  (u u1 : record) :
  apply_trade res amount u = Ok u1 ->
  (forall k : string,
      k <> "trades" -> k <> "wins" -> k <> "balance" -> u1 !! k = u !! k) /\
  (String.eqb res "win" = false -> u1 !! "wins" = u !! "wins") /\
  (amount = None -> u1 !! "balance" = u !! "balance").
Proof.
  unfold apply_trade.
  destruct (py_int (get u "trades" _)) as [t|]; simpl; [|discriminate].
  destruct (String.eqb res "win"); simpl.
  - destruct (py_int (get _ "wins" _)) as [n|]; simpl; [|discriminate].
    destruct amount as [amt|]; simpl.
    + destruct (py_float _) as [b|]; simpl; [|discriminate].
      intros [= <-]. repeat split; intros; try discriminate;
        simplify_map_eq; reflexivity.
    + intros [= <-]. repeat split; intros; try discriminate;
        simplify_map_eq; reflexivity.
  - destruct amount as [amt|]; simpl.
    + destruct (py_float _) as [b|]; simpl; [|discriminate].
      intros [= <-]. repeat split; intros; try discriminate;
        simplify_map_eq; reflexivity.
    + intros [= <-]. repeat split; intros; try discriminate;
        simplify_map_eq; reflexivity.
Qed.

(** X29.  A trade that returns changes [trades], [last_update], [wins] on a
    win and [balance] when an amount is given, and nothing else: every other
    field of the record, so the nickname and [period_start_balance], keeps
    its stored value (the default of the field where the record had none);
    so do [wins] on a loss and [balance] without an amount. *)
Theorem record_trade_keeps_other_fields (uid : string) (tr : TradeRecord)
  (w : world) (v : user_view) :
  fst (record_trade uid tr w) = Ok v ->
  exists u' : record,
    users_get uid (users (persisted (snd (record_trade uid tr w)))) = Some u' /\
    (forall k : string,
        k <> "trades" -> k <> "wins" -> k <> "balance" ->
        k <> "last_update" ->
        u' !! k
        = kept k (default new_user (users_get uid (users (persisted w))))) /\
    (lower (tr_result tr) = "lose" ->
     u' !! "wins"
     = kept "wins" (default new_user (users_get uid (users (persisted w))))) /\
    (tr_amount tr = None ->
     u' !! "balance"
     = kept "balance"
         (default new_user (users_get uid (users (persisted w))))).
Proof.
  pose proof (run_record_trade uid tr w) as H. cbv zeta in H. rewrite H.
  clear H.
  destruct (negb _); [discriminate|].
  destruct (apply_trade _ _ _) as [u1|e] eqn:E; [|discriminate].
  simpl. intros _.
  destruct (apply_trade_frame _ _ _ _ E) as (Hk & Hw & Hb).
  eexists. split; [unfold persisted; simpl; apply users_get_set_eq|].
  unfold kept. split; [|split].
  - intros k H1 H2 H3 H4. rewrite lookup_insert_ne by congruence.
    rewrite Hk by assumption. apply ensure_fields_lookup.
  - intros Hres. rewrite lookup_insert_ne by discriminate.
    rewrite Hw by (now rewrite Hres). apply ensure_fields_lookup.
  - intros Hamt. rewrite lookup_insert_ne by discriminate.
    rewrite Hb by exact Hamt. apply ensure_fields_lookup.
Qed.

End Runtime.

(** * Instances

    The statements above hold for every pair of text conversions.  The
    instances below are run with the pair that takes no text for a number;
    none of them converts a text. *)

(** C1 at a document in which October 2026 is closed, on 4 November. *)
Lemma month_closing_idempotent_witness :
  fst (post_close_month no_float (world_of closed_october))
    = Ok (already_closed "2026-10") /\
  disk (snd (post_close_month no_float (world_of closed_october)))
    = Some closed_october /\
  monthly_winners
    (persisted (snd (post_close_month no_float (world_of closed_october))))
    !! "2026-10" = Some october_entry.
Proof.
  apply (proj1 (month_closing_idempotent no_float no_int)
           (world_of closed_october) closed_october october_entry).
  - reflexivity.
  - vm_compute. reflexivity.
Defined.

(** C3 at the first trade of a new user: a win of 100. *)
Lemma record_trade_spec_witness :
  exists u' : record,
    persisted
      (snd (record_trade no_float no_int "alice" (trade "win" 100)
              fresh_world))
    = set_users default_db (users_set "alice" u' []) /\
    u' !! "trades" = Some (VInt 1) /\
    u' !! "wins" = Some (VInt 1) /\
    u' !! "balance" = Some (VFloat (round2 (5000 + 100)%float)).
Proof.
  apply (proj1 (proj2 (record_trade_spec no_float no_int))
           "alice" (trade "win" 100) fresh_world 0 0 5000%float).
  - left. reflexivity.
  - reflexivity.
  - reflexivity.
  - reflexivity.
Defined.

(** C4 at three stored users: only the nickname of "bob" is posted. *)
Lemma post_user_partial_update_witness :
  exists u' : record,
    users_get "bob"
      (users
         (persisted
            (snd (post_user no_float no_int "bob" (nickname_only "Bob")
                    (world_of (document_of three_users))))))
    = Some u' /\
    u' !! "balance" = Some (VFloat 4800) /\
    u' !! "trades" = Some (VInt 0) /\
    u' !! "wins" = Some (VInt 0) /\
    u' !! "period_start_balance" = Some (VFloat 5000).
Proof.
  destruct (post_user_partial_update no_float no_int "bob"
              (nickname_only "Bob") (world_of (document_of three_users))
              (user_with_balance 4800) eq_refl)
    as (u' & Hu & _ & Hb & Ht & Hw & Hp & _).
  exists u'. split; [exact Hu|].
  split; [exact (Hb eq_refl)|]. split; [exact (Ht eq_refl)|].
  split; [exact (Hw eq_refl)|]. exact (Hp eq_refl).
Defined.

Lemma three_users_no_nan :
  no_nan_keys arr_bal (podium_arr no_float three_users).
Proof. repeat constructor. Qed.

(** C5 (as amended) at three users and the podium size of the program. *)
Lemma podium_snapshot_spec_witness :
  Z.of_nat (length (compute_podium_snapshot no_float three_users 3)) = 3 /\
  StronglySorted (ge_key arr_bal) (podium_ranked no_float three_users).
Proof.
  split.
  - exact (proj1 (proj1 (podium_snapshot_spec no_float) three_users 3)).
  - destruct (proj1 (proj2 (podium_snapshot_spec no_float)) three_users 3
                three_users_no_nan)
      as (_ & _ & _ & Hs).
    exact Hs.
Defined.

(** C5 as stated fails.  With a negative [top_n], [range] is empty and so
    is the podium, whose length is not [min(top_n, number of users)].  With
    a NaN balance the user of balance 1 is ranked first and the user of
    balance 2 third: CPython reverses [arr] for [reverse=True] into the
    balances 2, NaN, 1, finds no element less than the one before it, takes
    the list for one ascending run and reverses it back unchanged, which is
    the list [sort_desc] returns. *)
Lemma podium_snapshot_counterexample :
  (length (compute_podium_snapshot no_float three_users (-1)) = 0%nat /\
   Z.min (-1) (Z.of_nat (length three_users)) = -1) /\
  (compute_podium_snapshot no_float users_with_nan 3
   = [ {| pe_position := 1; pe_user_id := "ann";
          pe_nickname := VStr EmptyString; pe_balance := 1 |};
       {| pe_position := 2; pe_user_id := "bob";
          pe_nickname := VStr EmptyString; pe_balance := nan |};
       {| pe_position := 3; pe_user_id := "cid";
          pe_nickname := VStr EmptyString; pe_balance := 2 |} ] /\
   (1 <? 2)%float = true).
Proof.
  split; split; vm_compute; reflexivity.
Defined.

(** C7 at a balance of 5001 over a start of 7000: the quotient
    -28.557142857142857 is returned as -28.56. *)
Lemma performance_formula_witness :
  exists m : metrics,
    compute_user_metrics no_float no_int (user_with_balances 5001 7000)
    = Ok m /\
    m_performance m = round2 (((5001 - 7000) / 7000) * 100)%float /\
    m_performance m = (-28.56)%float.
Proof.
  destruct (compute_user_metrics no_float no_int
              (user_with_balances 5001 7000))
    as [m|e] eqn:E; [|vm_compute in E; discriminate].
  exists m. split; [reflexivity|].
  destruct (proj1 (performance_formula no_float no_int)
              (user_with_balances 5001 7000) m E)
    as [_ H].
  assert (m_performance m = round2 (((5001 - 7000) / 7000) * 100)%float)
    as Hp by (apply H; reflexivity).
  split; [exact Hp|]. rewrite Hp. vm_compute. reflexivity.
Defined.

(** C6 at a text the conversion rejects. *)
Lemma compute_user_metrics_raises_witness :
  compute_user_metrics no_float no_int {["trades" := VStr "abc"]}
  = Raise ValueError.
Proof.
  apply (proj2 (proj2 (compute_user_metrics_raises no_float no_int))).
  - discriminate.
  - reflexivity.
Defined.

Lemma three_users_metrics :
  Forall (fun kv => is_Ok (compute_user_metrics no_float no_int (snd kv)))
    three_users.
Proof. repeat constructor; eexists; vm_compute; reflexivity. Qed.

Lemma three_users_shown :
  Forall (fun kv => is_nan (shown_balance no_float (snd kv)) = false)
    three_users.
Proof. repeat constructor; vm_compute; reflexivity. Qed.

(** X30 at three users and a limit of 2. *)
Lemma leaderboard_spec_witness :
  exists (rows : list leaderboard_row) (timestamp : string),
    fst (get_leaderboard no_float no_int 2
           (world_of (document_of three_users)))
    = Ok (rows, timestamp) /\
    StronglySorted (ge_key lb_balance) rows /\
    Z.of_nat (length rows) = 2.
Proof.
  destruct (proj1 (leaderboard_spec no_float no_int) 2
              (world_of (document_of three_users))
              three_users_metrics three_users_shown)
    as (rows & rest & arr & ts & Hr & Hs & _ & Hl & _).
  exists rows, ts. split; [exact Hr|]. split; [exact Hs|]. exact Hl.
Defined.

Lemma one_trade_reachable :
  reachable no_float no_int (request_counters nonneg)
    (serve no_float no_int (POST_trade "alice" (trade "win" 100))
       fresh_world).
Proof.
  apply reachable_serve; [|exact I].
  apply reachable_initial. left. reflexivity.
Qed.

(** C9 (as amended) after the first trade of a new user. *)
Lemma reachable_counters_witness :
  typed_records nonneg
    (persisted
       (serve no_float no_int (POST_trade "alice" (trade "win" 100))
          fresh_world)).
Proof.
  exact (proj2 (reachable_counters no_float no_int _) one_trade_reachable).
Defined.

(** C9 as stated fails: a user update that supplies [trades = -5] is
    stored as it is. *)
Lemma reachable_counters_counterexample :
  reachable no_float no_int (fun _ => True)
    (serve no_float no_int (POST_user "alice" (trades_only (-5)))
       fresh_world) /\
  (users_get "alice"
     (users
        (persisted
           (serve no_float no_int (POST_user "alice" (trades_only (-5)))
              fresh_world)))
   ≫= lookup "trades") = Some (VInt (-5)).
Proof.
  split.
  - apply reachable_serve; [|exact I].
    apply reachable_initial. left. reflexivity.
  - vm_compute. reflexivity.
Defined.

(** C10 at a query for a user that was never written. *)
Lemma reads_leave_document_witness :
  persisted
    (serve no_float no_int (GET_user "zed")
       (world_of (document_of three_users)))
  = document_of three_users /\
  users_get "zed"
    (users
       (persisted
          (serve no_float no_int (GET_user "zed")
             (world_of (document_of three_users)))))
  = None.
Proof.
  destruct (reads_leave_document no_float no_int (GET_user "zed")
              (world_of (document_of three_users)) eq_refl)
    as (Hp & _ & Hu).
  split; [exact Hp|]. apply Hu. reflexivity.
Defined.

(** X1 at the first update of the first user, on 4 November 2026. *)
Lemma rollover_without_users_witness :
  monthly_winners
    (persisted
       (snd (post_user no_float no_int "alice" (nickname_only "Al")
               fresh_world)))
  = ∅.
Proof.
  exact (rollover_without_users no_float no_int "alice" (nickname_only "Al")
           fresh_world eq_refl).
Defined.

(** X2 at a record that holds a text for its balance and no counter. *)
Lemma compute_user_metrics_typed_witness :
  exists m : metrics,
    compute_user_metrics no_float no_int {["balance" := VStr "n/a"]} = Ok m /\
    m_trades_this_period m = 0 /\ m_wins m = 0 /\
    m_balance m = 5000%float.
Proof.
  destruct (proj1 (compute_user_metrics_typed no_float no_int)
              {["balance" := VStr "n/a"]} 0 0)
    as (m & Hm & Ht & Hn & _ & Hraise & _).
  - left. split; reflexivity.
  - left. split; reflexivity.
  - reflexivity.
  - exists m. split; [exact Hm|]. split; [exact Ht|]. split; [exact Hn|].
    apply (Hraise ValueError). reflexivity.
Defined.

(** X3 at a new user. *)
Lemma win_rate_zero_witness :
  exists m : metrics,
    compute_user_metrics no_float no_int new_user = Ok m /\
    m_win_rate m = 0%float.
Proof.
  destruct (compute_user_metrics no_float no_int new_user) as [m|e] eqn:E;
    [|vm_compute in E; discriminate].
  exists m. split; [reflexivity|].
  apply (win_rate_zero no_float no_int new_user m E).
  vm_compute in E. injection E as <-. simpl. lia.
Defined.

(** X4 at September 2026, which was not closed. *)
Lemma get_winners_not_found_witness :
  fst (get_winners "2026-09" (world_of closed_october))
    = Raise (HTTPException 404 "No winners for that month") /\
  persisted (snd (get_winners "2026-09" (world_of closed_october)))
    = closed_october.
Proof.
  apply (get_winners_not_found "2026-09" (world_of closed_october)).
  vm_compute. reflexivity.
Defined.

(** X5 at a user that is not among the three stored ones. *)
Lemma get_user_default_witness :
  uv_balance
    <$> (match fst (get_user no_float no_int "zed"
                      (world_of (document_of three_users))) with
         | Ok v => Some v
         | Raise _ => None
         end)
  = Some 5000%float.
Proof.
  destruct (get_user_default no_float no_int "zed"
              (world_of (document_of three_users)) eq_refl) as [-> _].
  reflexivity.
Defined.

(** X7 at the first trade of a new user. *)
Lemma record_trade_then_get_user_witness :
  exists v : user_view,
    fst (record_trade no_float no_int "alice" (trade "win" 100) fresh_world)
    = Ok v /\
    fst (get_user no_float no_int "alice"
           (snd (record_trade no_float no_int "alice" (trade "win" 100)
                   fresh_world)))
    = Ok v.
Proof.
  eexists. split; [vm_compute; reflexivity|].
  apply (record_trade_then_get_user no_float no_int "alice"
           (trade "win" 100) fresh_world).
  vm_compute. reflexivity.
Defined.

(** X8 at a trade of "bob" among three users: the record of "ann" stays. *)
Lemma writers_leave_other_users_witness :
  users_get "ann"
    (users
       (persisted
          (snd (record_trade no_float no_int "bob" (trade "lose" 50)
                  (world_of (document_of three_users))))))
  = Some (user_with_balance 5200).
Proof.
  destruct (writers_leave_other_users no_float no_int "bob" "ann"
              (world_of (document_of three_users)))
    as [_ H]; [discriminate|].
  rewrite H. reflexivity.
Defined.

Lemma trade_then_close_reached :
  reachable no_float no_int (fun _ => True)
    (serve no_float no_int POST_close_month
       (serve no_float no_int (POST_trade "alice" (trade "win" 100))
          fresh_world)).
Proof.
  apply reachable_serve; [|exact I]. apply reachable_serve; [|exact I].
  apply reachable_initial. left. reflexivity.
Qed.

(** X10 after a trade of a new user and a manual closing. *)
Lemma reachable_user_ids_NoDup_witness :
  NoDup
    (user_ids
       (persisted
          (serve no_float no_int POST_close_month
             (serve no_float no_int (POST_trade "alice" (trade "win" 100))
                fresh_world)))).
Proof.
  exact (reachable_user_ids_NoDup no_float no_int _ trade_then_close_reached).
Defined.

(** X13 in November 2026, already marked, with users and no entry for
    October: no entry is added. *)
Lemma post_user_same_month_witness :
  monthly_winners
    (persisted
       (snd (post_user no_float no_int "bob" (nickname_only "Bob")
               (world_of marked_november))))
  = ∅.
Proof.
  apply (post_user_same_month no_float no_int "bob" (nickname_only "Bob")
           (world_of marked_november)).
  vm_compute. reflexivity.
Defined.

(** X14 at the first update of November 2026: "bob" posts a balance of
    9000 and stands on the podium of October with 4800. *)
Lemma post_user_snapshots_before_update_witness :
  monthly_winners
    (persisted
       (snd (post_user no_float no_int "bob" (balance_only 9000)
               (world_of (document_of three_users)))))
  = {[ "2026-10" :=
         {| we_podium := compute_podium_snapshot no_float three_users 3;
            we_closed_at := "2026-11-04T12:00:00Z" |} ]}.
Proof.
  apply (post_user_snapshots_before_update no_float no_int "bob"
           (balance_only 9000) (world_of (document_of three_users))).
  - discriminate.
  - reflexivity.
  - discriminate.
Defined.

(** X15 at three users, in November 2026. *)
Lemma close_month_twice_witness :
  fst (post_close_month no_float
         (snd (post_close_month no_float
                 (world_of (document_of three_users)))))
  = Ok (already_closed "2026-10").
Proof.
  apply (close_month_twice no_float (world_of (document_of three_users))).
  vm_compute. reflexivity.
Defined.

(** X16 at three users, in November 2026. *)
Lemma close_month_then_get_winners_witness :
  fst (get_winners "2026-10"
         (snd (post_close_month no_float
                 (world_of (document_of three_users)))))
  = Ok ("2026-10",
        {| we_podium := compute_podium_snapshot no_float three_users 3;
           we_closed_at := "2026-11-04T12:00:00Z" |}).
Proof.
  apply (close_month_then_get_winners no_float
           (world_of (document_of three_users)) "2026-10"
           (compute_podium_snapshot no_float three_users 3)).
  vm_compute. reflexivity.
Defined.

(** X17 after a trade of a new user and a manual closing. *)
Lemma reachable_podiums_witness :
  podiums_at_most 3
    (persisted
       (serve no_float no_int POST_close_month
          (serve no_float no_int (POST_trade "alice" (trade "win" 100))
             fresh_world))).
Proof.
  exact (reachable_podiums no_float no_int _ trade_then_close_reached).
Defined.

(** X18 at November 2026 and January 2027. *)
Lemma month_keys_chronological_witness :
  (String.ltb (strftime_Ym noon_4_nov_2026) (strftime_Ym new_year_2027) = true
   <-> earlier_month noon_4_nov_2026 new_year_2027) /\
  (strftime_Ym noon_4_nov_2026 = strftime_Ym new_year_2027 <->
   year noon_4_nov_2026 = year new_year_2027 /\
   month noon_4_nov_2026 = month new_year_2027).
Proof.
  apply (month_keys_chronological noon_4_nov_2026 new_year_2027).
  - unfold calendar_month. simpl. lia.
  - unfold calendar_month. simpl. lia.
Defined.

(** X19 on the first of January 2027: the previous month is December
    2026. *)
Lemma prev_month_key_precedes_witness :
  String.ltb (prev_month_at january_world) (month_key_at january_world)
  = true.
Proof.
  apply (prev_month_key_precedes january_world).
  - simpl. lia.
  - simpl. lia.
Defined.

(** X22 at a nickname of 47 characters. *)
Lemma post_user_truncates_nickname_witness :
  exists (v : user_view) (s : string),
    fst (post_user no_float no_int "ann" (nickname_only long_nickname)
           fresh_world) = Ok v /\
    uv_nickname v = VStr s /\ String.length s = 40%nat.
Proof.
  destruct (fst (post_user no_float no_int "ann"
                   (nickname_only long_nickname) fresh_world))
    as [v|e] eqn:E; [|vm_compute in E; discriminate].
  destruct (post_user_truncates_nickname no_float no_int "ann"
              (nickname_only long_nickname) fresh_world long_nickname v
              eq_refl E)
    as (s & u' & Hv & _ & _ & Hlen & _).
  exists v, s. split; [reflexivity|]. split; [exact Hv | exact Hlen].
Defined.

(** X24 at a month without winners, after a trade and a manual closing. *)
Lemma reachable_errors_witness :
  exists e : exn,
    raised no_float no_int (GET_winners "2026-09")
      (serve no_float no_int POST_close_month
         (serve no_float no_int (POST_trade "alice" (trade "win" 100))
            fresh_world))
    = Some e /\
    e = not_found.
Proof.
  eexists. split; [vm_compute; reflexivity|].
  apply (reachable_errors no_float no_int (GET_winners "2026-09") _ _
           trade_then_close_reached).
  vm_compute. reflexivity.
Defined.

(** X26 at three users, with the limits 1 and 2. *)
Lemma leaderboard_limit_prefix_witness :
  exists (rows1 rows2 : list leaderboard_row) (t1 t2 : string),
    fst (get_leaderboard no_float no_int 1
           (world_of (document_of three_users))) = Ok (rows1, t1) /\
    fst (get_leaderboard no_float no_int 2
           (world_of (document_of three_users))) = Ok (rows2, t2) /\
    length rows1 = 1%nat /\ length rows2 = 2%nat /\
    rows1 `prefix_of` rows2.
Proof.
  eexists _, _, _, _.
  split; [vm_compute; reflexivity|].
  split; [vm_compute; reflexivity|].
  split; [reflexivity|]. split; [reflexivity|].
  eapply (leaderboard_limit_prefix no_float no_int 1 2
            (world_of (document_of three_users))
            (world_of (document_of three_users))).
  - reflexivity.
  - lia.
  - vm_compute. reflexivity.
  - vm_compute. reflexivity.
Defined.

(** X27 at an update to one trade and [2 ^ 1024] wins: the update raises
    and the record is stored. *)
Lemma writers_raise_after_write_witness :
  fst (post_user no_float no_int "alice" huge_wins fresh_world)
  = Raise OverflowError /\
  exists u' : record,
    users_get "alice"
      (users
         (persisted (snd (post_user no_float no_int "alice" huge_wins
                            fresh_world))))
    = Some u' /\
    compute_user_metrics no_float no_int u' = Raise OverflowError.
Proof.
  assert (fst (post_user no_float no_int "alice" huge_wins fresh_world)
          = Raise OverflowError) as H by (vm_compute; reflexivity).
  split; [exact H|].
  exact (proj1 (writers_raise_after_write no_float no_int "alice" fresh_world
                  OverflowError) huge_wins H).
Defined.

(** X28 at three users and the limit 2. *)
Lemma leaderboard_rows_agree_with_get_user_witness :
  exists v : user_view,
    fst (get_user no_float no_int "cid" (world_of (document_of three_users)))
    = Ok v /\
    uv_balance v = 5000%float /\ uv_trades_this_period v = 0.
Proof.
  destruct (leaderboard_rows_agree_with_get_user no_float no_int 2
              (world_of (document_of three_users))
              [leaderboard_row_of "ann" (user_with_balance 5200)
                 {| m_performance := 4; m_win_rate := 0;
                    m_trades_this_period := 0; m_wins := 0;
                    m_period_start_balance := 5000; m_balance := 5200 |};
               leaderboard_row_of "cid" (user_with_balance 5000)
                 {| m_performance := 0; m_win_rate := 0;
                    m_trades_this_period := 0; m_wins := 0;
                    m_period_start_balance := 5000; m_balance := 5000 |}]
              "2026-11-04T12:00:00Z"
              (leaderboard_row_of "cid" (user_with_balance 5000)
                 {| m_performance := 0; m_win_rate := 0;
                    m_trades_this_period := 0; m_wins := 0;
                    m_period_start_balance := 5000; m_balance := 5000 |}))
    as (v & Hv & _ & Hb & _ & _ & Ht).
  - vm_compute.
    repeat (apply NoDup_cons_2;
            [rewrite ?not_elem_of_cons; repeat split;
             (discriminate || apply not_elem_of_nil)|]).
    apply NoDup_nil_2.
  - vm_compute. reflexivity.
  - right. left.
  - exists v. auto.
Defined.

(** X29 at a loss of "bob" without an amount: the balance, the wins and
    the starting balance stay. *)
Lemma record_trade_keeps_other_fields_witness :
  exists u' : record,
    users_get "bob"
      (users
         (persisted
            (snd (record_trade no_float no_int "bob"
                    {| tr_result := "LOSE"; tr_amount := None |}
                    (world_of (document_of three_users))))))
    = Some u' /\
    u' !! "period_start_balance" = Some (VFloat 5000) /\
    u' !! "wins" = Some (VInt 0) /\
    u' !! "balance" = Some (VFloat 4800).
Proof.
  destruct (fst (record_trade no_float no_int "bob"
                   {| tr_result := "LOSE"; tr_amount := None |}
                   (world_of (document_of three_users))))
    as [v|e] eqn:E; [|vm_compute in E; discriminate].
  destruct (record_trade_keeps_other_fields no_float no_int "bob"
              {| tr_result := "LOSE"; tr_amount := None |}
              (world_of (document_of three_users)) v E)
    as (u' & Hu & Hk & Hw & Hb).
  exists u'. split; [exact Hu|].
  split; [|split].
  - rewrite Hk by discriminate. reflexivity.
  - rewrite Hw by reflexivity. reflexivity.
  - rewrite Hb by reflexivity. reflexivity.
Defined.
